(** * Geolocation attendance tracker (finalcode.py): model and properties

    The program is a sequence of UI-event handlers bound to one SQLite
    table, [attendance].  The development below embeds

    - the Python string and clock helpers the handlers use
      ([str.strip], [str.join], [strftime]);
    - the schema manager ([init_db], [migrate_columns]);
    - the location helper ([get_ip_location]);
    - the statements the handlers run on the table (INSERT, the two
      UPDATEs, the three SELECTs) and the handlers themselves.

    Strings are [string]; each [ascii] stands for the character of that
    code point.  REAL columns hold binary64 floats, as SQLite keeps them
    ([Sqlite.real]).  A nullable column is an [option]. *)

From Stdlib Require Import String Ascii ZArith List Bool Lia.
From Stdlib Require Import Floats.
From Stdlib Require Import Sorting.Permutation Sorting.Sorted.
Import ListNotations.

Open Scope string_scope.
Open Scope Z_scope.

#[local] Set Warnings "-inexact-float".

(* ------------------------------------------------------------------ *)
(** * Python helpers *)

Module Py.

(** [str.isspace] on one character, for the code points below 256:
    tab, line feed, vertical tab, form feed, carriage return, the four
    separators 28..31, space, next line (133) and no-break space (160). *)
Definition is_space (c : ascii) : bool :=
  let n := N_of_ascii c in
  ((9 <=? n) && (n <=? 13) || (28 <=? n) && (n <=? 32)
   || (n =? 133) || (n =? 160))%N.

(** [s.lstrip()] *)
Fixpoint lstrip (s : string) : string :=
  match s with
  | String c s' => if is_space c then lstrip s' else s
  | EmptyString => EmptyString
  end.

(** [s.rstrip()] *)
Fixpoint rstrip (s : string) : string :=
  match s with
  | String c s' =>
      match rstrip s' with
      | EmptyString => if is_space c then EmptyString else String c EmptyString
      | r => String c r
      end
  | EmptyString => EmptyString
  end.

(** [s.strip()] *)
Definition strip (s : string) : string := rstrip (lstrip s).

(** Truth value of a [str]: the empty string is false. *)
Definition truthy (s : string) : bool :=
  match s with EmptyString => false | String _ _ => true end.

(** [sep.join(items)] *)
Definition join (sep : string) (items : list string) : string :=
  String.concat sep items.

(** [a or b] on strings. *)
Definition or_else (a b : string) : string := if truthy a then a else b.

(** A string every character of which is whitespace (the empty string
    included). *)
Definition all_space (s : string) : Prop :=
  Forall (fun c => is_space c = true) (list_ascii_of_string s).

End Py.

(* ------------------------------------------------------------------ *)
(** * The clock: [date], [datetime] and [strftime] *)

Record date := mkDate { year : Z; month : Z; day : Z }.

Record datetime := mkDatetime
  { dt_date : date; hour : Z; minute : Z; second : Z }.

(** The ranges [datetime] keeps its fields in.  Years before 1000 are left
    out: the C library prints them without leading zeros on some
    platforms. *)
Definition valid_date (d : date) : Prop :=
  1000 <= year d <= 9999 /\ 1 <= month d <= 12 /\ 1 <= day d <= 31.

Definition valid_datetime (t : datetime) : Prop :=
  valid_date (dt_date t) /\
  0 <= hour t <= 23 /\ 0 <= minute t <= 59 /\ 0 <= second t <= 59.

Definition digit (n : Z) : ascii := ascii_of_nat (48 + Z.to_nat (n mod 10)).

Definition is_digit (c : ascii) : bool :=
  ((48 <=? N_of_ascii c) && (N_of_ascii c <=? 57))%N.

(** A decimal number zero-padded to two, resp. four, places. *)
Definition pad2 (n : Z) : string :=
  String (digit (n / 10)) (String (digit n) EmptyString).

Definition pad4 (n : Z) : string :=
  String (digit (n / 1000)) (String (digit (n / 100)) (pad2 n)).

(** The directives the program uses. Any other character after a percent
    sign is kept as it is. *)
Definition directive (d : ascii) (t : datetime) : string :=
  match d with
  | "Y"%char => pad4 (year (dt_date t))
  | "m"%char => pad2 (month (dt_date t))
  | "d"%char => pad2 (day (dt_date t))
  | "H"%char => pad2 (hour t)
  | "M"%char => pad2 (minute t)
  | "S"%char => pad2 (second t)
  | c => String "%" (String c EmptyString)
  end.

(** [t.strftime(fmt)] *)
Fixpoint strftime (fmt : string) (t : datetime) : string :=
  match fmt with
  | String "%" (String d rest) => directive d t ++ strftime rest t
  | String c rest => String c (strftime rest t)
  | EmptyString => EmptyString
  end.

(** [d.strftime(fmt)] on a [date]: the time of day is midnight. *)
Definition date_strftime (fmt : string) (d : date) : string :=
  strftime fmt (mkDatetime d 0 0 0).

Definition TIMESTAMP_FORMAT : string := "%Y-%m-%d %H:%M:%S".
Definition DATE_FORMAT : string := "%Y-%m-%d".

(** The shape YYYY-MM-DD HH:MM:SS: nineteen characters, digits everywhere
    but at the five separators. *)
Definition timestamp_shape (s : string) : Prop :=
  exists y1 y2 y3 y4 m1 m2 d1 d2 h1 h2 n1 n2 s1 s2,
    list_ascii_of_string s =
      [y1; y2; y3; y4; "-"; m1; m2; "-"; d1; d2; " ";
       h1; h2; ":"; n1; n2; ":"; s1; s2]%char /\
    forallb is_digit [y1; y2; y3; y4; m1; m2; d1; d2; h1; h2; n1; n2; s1; s2]
      = true.

(** Reading a timestamp of that shape back. *)
Definition digit_value (c : ascii) : Z := Z.of_N (N_of_ascii c) - 48.

Definition number (cs : list ascii) : Z :=
  fold_left (fun n c => 10 * n + digit_value c) cs 0.

Definition read_timestamp (s : string) : option datetime :=
  match list_ascii_of_string s with
  | [y1; y2; y3; y4; a; m1; m2; b; d1; d2; c; h1; h2; e; n1; n2; f; s1; s2] =>
      if forallb (Ascii.eqb "-") [a; b] && Ascii.eqb c " "
         && forallb (Ascii.eqb ":") [e; f]
         && forallb is_digit
              [y1; y2; y3; y4; m1; m2; d1; d2; h1; h2; n1; n2; s1; s2]
      then Some (mkDatetime
                   (mkDate (number [y1; y2; y3; y4]) (number [m1; m2])
                      (number [d1; d2]))
                   (number [h1; h2]) (number [n1; n2]) (number [s1; s2]))
      else None
  | _ => None
  end.

(* ------------------------------------------------------------------ *)
(** * Schema manager: [init_db] and the first half of [migrate_columns] *)

(** A column of the table: its name and its declared type. *)
Definition column := (string * string)%type.

(** The table of the database file: absent, or present with its columns
    in declaration order. *)
Definition schema := option (list column).

(** The column list of the CREATE TABLE statement of [init_db]. *)
Definition base_columns : list column :=
  [ ("id", "INTEGER PRIMARY KEY AUTOINCREMENT");
    ("username", "TEXT");
    ("latitude", "REAL");
    ("longitude", "REAL");
    ("address", "TEXT");
    ("checkin_time", "TEXT");
    ("checkin_remark", "TEXT");
    ("checkin_latitude", "REAL");
    ("checkin_longitude", "REAL");
    ("checkout_time", "TEXT");
    ("checkout_remark", "TEXT");
    ("checkout_latitude", "REAL");
    ("checkout_longitude", "REAL") ].

(** [init_db]: CREATE TABLE IF NOT EXISTS. *)
Definition init_db (s : schema) : schema :=
  match s with
  | None => Some base_columns
  | Some cols => Some cols
  end.

(** The dict [new_cols] of [migrate_columns], in insertion order. *)
Definition new_cols : list column :=
  [ ("latitude", "REAL");
    ("longitude", "REAL");
    ("checkin_remark", "TEXT");
    ("checkout_remark", "TEXT");
    ("checkin_latitude", "REAL");
    ("checkin_longitude", "REAL");
    ("checkout_latitude", "REAL");
    ("checkout_longitude", "REAL") ].

(** What a statement can fail with. *)
Inductive sql_error :=
| NoSuchTable
| DuplicateColumn (name : string).

(** A statement run on a connection: it reads and changes the schema,
    appends to the log of ALTER TABLE statements executed, and may fail. *)
Record conn := mkConn { table : schema; altered : list column }.

Definition Sql (A : Type) : Type := conn -> sql_error + (A * conn).

Definition ret {A} (a : A) : Sql A := fun c => inr (a, c).

Definition bind {A B} (m : Sql A) (k : A -> Sql B) : Sql B :=
  fun c => match m c with
           | inl e => inl e
           | inr (a, c') => k a c'
           end.

Notation "x <- m ;; k" := (bind m (fun x => k))
  (at level 61, m at next level, right associativity).
Notation "m ;;; k" := (bind m (fun _ => k))
  (at level 61, right associativity).

(** [col in cols] *)
Definition mem (col : string) (cols : list string) : bool :=
  existsb (String.eqb col) cols.

(** PRAGMA table_info(attendance), projected on the name ([r[1]]): no
    rows when the table is absent. *)
Definition table_info_names : Sql (list string) :=
  fun c => inr (match table c with
                | None => []
                | Some cols => map fst cols
                end, c).

(** SQLite compares column names without regard to the case of the
    letters A to Z. *)
Definition ascii_lower (c : ascii) : ascii :=
  let n := N_of_ascii c in
  if ((65 <=? n) && (n <=? 90))%N then ascii_of_N (n + 32) else c.

Fixpoint lower (s : string) : string :=
  match s with
  | EmptyString => EmptyString
  | String c s' => String (ascii_lower c) (lower s')
  end.

Definition name_eq (a b : string) : bool := String.eqb (lower a) (lower b).

(** The table has a column of that name, as SQLite sees it. *)
Definition has_name (col : string) (cols : list string) : bool :=
  existsb (name_eq col) cols.

(** ALTER TABLE attendance ADD COLUMN col col_type: the column goes last;
    a name the table already has, in whatever case, is refused. *)
Definition alter_add_column (col col_type : string) : Sql unit :=
  fun c =>
    match table c with
    | None => inl NoSuchTable
    | Some cols =>
        if has_name col (map fst cols) then inl (DuplicateColumn col)
        else inr (tt, {| table := Some (cols ++ [(col, col_type)])%list;
                         altered := (altered c ++ [(col, col_type)])%list |})
    end.

(** The loop of [migrate_columns] over [new_cols.items()]. [cols] is read
    once, before the loop. *)
Fixpoint add_missing (cols : list string) (items : list column) : Sql unit :=
  match items with
  | [] => ret tt
  | (col, col_type) :: rest =>
      (if mem col cols then ret tt else alter_add_column col col_type) ;;;
      add_missing cols rest
  end.

(** Lines 43-59 of [migrate_columns]. *)
Definition ensure_columns : Sql unit :=
  cols <- table_info_names ;;
  add_missing cols new_cols.

(** Running a statement sequence on a table, with an empty log. *)
Definition run {A} (m : Sql A) (s : schema) : sql_error + (A * conn) :=
  m {| table := s; altered := [] |}.

(* ------------------------------------------------------------------ *)
(** * Location helper: [get_ip_location] *)

(** What evaluating a Python expression gives: a value, or an exception
    (an instance of [Exception]). *)
Inductive py (A : Type) : Type :=
| Raises
| Returns (a : A).

Arguments Raises {A}.
Arguments Returns {A} a.

Definition py_bind {A B} (m : py A) (k : A -> py B) : py B :=
  match m with
  | Raises => Raises
  | Returns a => k a
  end.

Notation "x <~ m ;; k" := (py_bind m (fun x => k))
  (at level 61, m at next level, right associativity).

(** [try: body  except Exception: handler] *)
Definition try_except {A} (body : py A) (handler : py A) : py A :=
  match body with
  | Raises => handler
  | Returns a => Returns a
  end.

(** The value of one of the attributes city, state, country, as
    [getattr(g, name, None)] gives it. *)
Inductive attr_value :=
| AttrNone                    (* None, also when the attribute is missing *)
| AttrStr (s : string)
| AttrOther (truthy : bool).  (* an object of any other type *)

(** An element of [latlng], by what [float()] makes of it. *)
Inductive coord :=
| FloatOk (f : float)
| FloatFails.

(** The value of [g.latlng]. *)
Inductive latlng_value :=
| LatLngNone
| LatLngList (items : list coord)
| LatLngOther (truthy : bool). (* an object that cannot be indexed *)

(** The object [geocoder.ip] returns, by the attributes the program reads.
    Reading an attribute may itself raise. *)
Record geo := mkGeo
  { latlng : py latlng_value;
    city : py attr_value;
    state : py attr_value;
    country : py attr_value }.

(** Truth value of [latlng]. *)
Definition latlng_truthy (v : latlng_value) : bool :=
  match v with
  | LatLngNone => false
  | LatLngList items => match items with [] => false | _ => true end
  | LatLngOther b => b
  end.

(** [float(latlng[i])] *)
Definition float_item (v : latlng_value) (i : nat) : py float :=
  match v with
  | LatLngList items =>
      match nth_error items i with
      | Some (FloatOk f) => Returns f
      | Some FloatFails => Raises        (* ValueError, TypeError *)
      | None => Raises                   (* IndexError *)
      end
  | _ => Raises                          (* TypeError *)
  end.

Definition attr_truthy (a : attr_value) : bool :=
  match a with
  | AttrNone => false
  | AttrStr s => Py.truthy s
  | AttrOther b => b
  end.

(** The items of [sep.join] must all be [str]. *)
Fixpoint strs_of (items : list attr_value) : py (list string) :=
  match items with
  | [] => Returns []
  | AttrStr s :: rest => l <~ strs_of rest ;; Returns (s :: l)
  | _ :: rest => Raises                  (* TypeError *)
  end.

(** [sep.join(filter(None, items))] *)
Definition join_filter_none (sep : string) (items : list attr_value)
  : py string :=
  l <~ strs_of (filter attr_truthy items) ;; Returns (Py.join sep l).

(** [(float(latlng[0]), float(latlng[1])) if latlng else (None, None)] *)
Definition coords (v : latlng_value) : py (option float * option float) :=
  if latlng_truthy v
  then (a <~ float_item v 0 ;; b <~ float_item v 1 ;;
        Returns (Some a, Some b))
  else Returns (None, None).

Definition location := (option float * option float * string)%type.

(** The body of the try block, on the outcome of [geocoder.ip]. *)
Definition locate (lookup : py geo) : py location :=
  g <~ lookup ;;
  v <~ latlng g ;;
  ll <~ coords v ;;
  c <~ city g ;;
  s <~ state g ;;
  k <~ country g ;;
  joined <~ join_filter_none ", " [c; s; k] ;;
  Returns (fst ll, snd ll, Py.or_else joined "Unknown").

Definition UNKNOWN : location := (None, None, "Unknown").

Definition get_ip_location (lookup : py geo) : py location :=
  try_except (locate lookup) (Returns UNKNOWN).


(** The fields of a place name that are there: not None and not empty. *)
Definition present (fields : list (option string)) : list string :=
  flat_map (fun o => match o with
                     | Some (String c s) => [String c s]
                     | _ => []
                     end) fields.


(* ------------------------------------------------------------------ *)
(** * The attendance table *)

(** A row of [attendance], column by column.  A column the table did not
    have when the row was written reads as NULL. *)
Record row := mkRow
  { id : Z;
    username : option string;
    latitude : option float;
    longitude : option float;
    address : option string;
    checkin_time : option string;
    checkin_remark : option string;
    checkin_latitude : option float;
    checkin_longitude : option float;
    checkout_time : option string;
    checkout_remark : option string;
    checkout_latitude : option float;
    checkout_longitude : option float }.

(** The table with the counter AUTOINCREMENT keeps for it: the largest id
    ever given out. *)
Record db := mkDb { rows : list row; seq : Z }.

Definition empty_db : db := {| rows := []; seq := 0 |}.

(** The primary key: no two rows share an id. *)
Definition pk_unique (d : db) : Prop := NoDup (map id (rows d)).

Module Sqlite.

(** [x IS NULL] *)
Definition is_null {A} (x : option A) : bool :=
  match x with None => true | Some _ => false end.

(** A float bound to a parameter of a REAL column, as the table holds it
    afterwards: NaN is stored as NULL, and negative zero reads back as
    zero; every other number is kept. *)
Definition real (x : option float) : option float :=
  match x with
  | Some f =>
      if PrimFloat.is_nan f then None
      else if PrimFloat.eqb f PrimFloat.zero then Some PrimFloat.zero
      else Some f
  | None => None
  end.

(** [x = ?] on a TEXT column: NULL equals nothing. *)
Definition text_eq (x : option string) (v : string) : bool :=
  match x with
  | Some s => String.eqb s v
  | None => false
  end.

(** [substr(x, 1, n)] *)
Definition substr1 (x : option string) (n : nat) : option string :=
  option_map (substring 0 n) x.

(** [x BETWEEN lo AND hi] on text, in the order of the character codes. *)
Definition between (x : option string) (lo hi : string) : bool :=
  match x with
  | Some s => String.leb lo s && String.leb s hi
  | None => false
  end.

(** SELECT ... WHERE *)
Definition select (where_ : row -> bool) (rs : list row) : list row :=
  filter where_ rs.

(** UPDATE ... SET ... WHERE *)
Definition update (set_ : row -> row) (where_ : row -> bool)
  (rs : list row) : list row :=
  map (fun r => if where_ r then set_ r else r) rs.

(** ORDER BY id DESC *)
Fixpoint insert_desc (r : row) (rs : list row) : list row :=
  match rs with
  | [] => [r]
  | x :: rest => if id x <=? id r then r :: rs else x :: insert_desc r rest
  end.

Fixpoint order_by_id_desc (rs : list row) : list row :=
  match rs with
  | [] => []
  | r :: rest => insert_desc r (order_by_id_desc rest)
  end.

(** LIMIT 1 followed by [fetchone()] *)
Definition fetchone {A} (rs : list A) : option A := hd_error rs.

(** The largest id in the table, 0 when there is none above it. *)
Definition max_id (rs : list row) : Z :=
  fold_right (fun r m => Z.max (id r) m) 0 rs.

(** The id AUTOINCREMENT gives the next row. *)
Definition next_id (d : db) : Z := Z.max (seq d) (max_id (rows d)) + 1.

End Sqlite.

(** The INSERT of the check-in handler, with its twelve values in the
    order of the statement.  The values of the REAL columns go through
    [Sqlite.real]. *)
Definition insert_attendance
  (v_username : string) (v_latitude v_longitude : option float)
  (v_checkin_latitude v_checkin_longitude : option float)
  (v_address v_checkin_time v_checkin_remark : string)
  (v_checkout_time v_checkout_remark : option string)
  (v_checkout_latitude v_checkout_longitude : option float) (d : db) : db :=
  let i := Sqlite.next_id d in
  {| rows := (rows d ++
        [ {| id := i;
             username := Some v_username;
             latitude := Sqlite.real v_latitude;
             longitude := Sqlite.real v_longitude;
             address := Some v_address;
             checkin_time := Some v_checkin_time;
             checkin_remark := Some v_checkin_remark;
             checkin_latitude := Sqlite.real v_checkin_latitude;
             checkin_longitude := Sqlite.real v_checkin_longitude;
             checkout_time := v_checkout_time;
             checkout_remark := v_checkout_remark;
             checkout_latitude := Sqlite.real v_checkout_latitude;
             checkout_longitude := Sqlite.real v_checkout_longitude |} ])%list;
     seq := i |}.

(** SELECT id FROM attendance WHERE username=? AND checkout_time IS NULL
    ORDER BY id DESC LIMIT 1 *)
Definition open_for (u : string) (r : row) : bool :=
  Sqlite.text_eq (username r) u && Sqlite.is_null (checkout_time r).

Definition select_open_id (u : string) (d : db) : option Z :=
  Sqlite.fetchone
    (map id (Sqlite.order_by_id_desc (Sqlite.select (open_for u) (rows d)))).

(** UPDATE attendance SET checkout_time=?, checkout_remark=?,
    checkout_latitude=?, checkout_longitude=? WHERE id=?
    The two coordinates go through [Sqlite.real]. *)
Definition set_checkout (t remark : string) (lat lon : option float)
  (r : row) : row :=
  {| id := id r;
     username := username r;
     latitude := latitude r;
     longitude := longitude r;
     address := address r;
     checkin_time := checkin_time r;
     checkin_remark := checkin_remark r;
     checkin_latitude := checkin_latitude r;
     checkin_longitude := checkin_longitude r;
     checkout_time := Some t;
     checkout_remark := Some remark;
     checkout_latitude := Sqlite.real lat;
     checkout_longitude := Sqlite.real lon |}.

Definition update_checkout (t remark : string) (lat lon : option float)
  (record_id : Z) (d : db) : db :=
  {| rows := Sqlite.update (set_checkout t remark lat lon)
               (fun r => id r =? record_id) (rows d);
     seq := seq d |}.

(** The second statement of [migrate_columns]:
    UPDATE attendance SET latitude = checkin_latitude,
                          longitude = checkin_longitude
    WHERE (latitude IS NULL OR longitude IS NULL)
      AND checkin_latitude IS NOT NULL AND checkin_longitude IS NOT NULL *)
Definition set_legacy_location (r : row) : row :=
  {| id := id r;
     username := username r;
     latitude := checkin_latitude r;
     longitude := checkin_longitude r;
     address := address r;
     checkin_time := checkin_time r;
     checkin_remark := checkin_remark r;
     checkin_latitude := checkin_latitude r;
     checkin_longitude := checkin_longitude r;
     checkout_time := checkout_time r;
     checkout_remark := checkout_remark r;
     checkout_latitude := checkout_latitude r;
     checkout_longitude := checkout_longitude r |}.

Definition needs_backfill (r : row) : bool :=
  (Sqlite.is_null (latitude r) || Sqlite.is_null (longitude r))
  && negb (Sqlite.is_null (checkin_latitude r))
  && negb (Sqlite.is_null (checkin_longitude r)).

Definition backfill (d : db) : db :=
  {| rows := Sqlite.update set_legacy_location needs_backfill (rows d);
     seq := seq d |}.

(** [migrate_columns] on the whole database file. *)
Definition migrate_columns (s : schema) (d : db)
  : sql_error + (schema * db) :=
  match run ensure_columns s with
  | inl e => inl e
  | inr (_, c) => inr (table c, backfill d)
  end.

(* ------------------------------------------------------------------ *)
(** * The handlers *)

(** What a handler shows the user. *)
Inductive feedback :=
| error_enter_name                               (* st.error *)
| success_checked_in (checkin_time address : string)
| success_checked_out (checkout_time : string)
| warning_no_active_checkin                      (* st.warning *)
| uncaught_exception.

(** The names the specification gives the two recovered errors. *)
Definition ValidationError : feedback := error_enter_name.
Definition NotFound : feedback := warning_no_active_checkin.

(** [not username.strip()] *)
Definition blank (u : string) : bool := negb (Py.truthy (Py.strip u)).

(** The Check-In button.  [now] is what [datetime.now()] returns and
    [lookup] what [geocoder.ip] does when the handler runs. *)
Definition check_in (now : datetime) (lookup : py geo)
  (u remark : string) (d : db) : feedback * db :=
  if blank u then (error_enter_name, d)
  else
    match get_ip_location lookup with
    | Raises => (uncaught_exception, d)
    | Returns (lat, lon, addr) =>
        let t := strftime TIMESTAMP_FORMAT now in
        (success_checked_in t addr,
         insert_attendance u lat lon lat lon addr t remark
           None None None None d)
    end.

(** The Check-Out button. *)
Definition check_out (now : datetime) (lookup : py geo)
  (u remark : string) (d : db) : feedback * db :=
  if blank u then (error_enter_name, d)
  else
    match select_open_id u d with
    | Some record_id =>
        match get_ip_location lookup with
        | Raises => (uncaught_exception, d)
        | Returns (lat, lon, _) =>
            let t := strftime TIMESTAMP_FORMAT now in
            (success_checked_out t, update_checkout t remark lat lon record_id d)
        end
    | None => (warning_no_active_checkin, d)
    end.

(** Show My Attendance History:
    SELECT * FROM attendance WHERE username=? ORDER BY id DESC,
    run only for a name that is not blank. *)
Definition history (u : string) (d : db) : option (list row) :=
  if blank u then None
  else Some (Sqlite.order_by_id_desc
               (Sqlite.select (fun r => Sqlite.text_eq (username r) u)
                  (rows d))).

(** The admin query, as the handler builds it: the username condition is
    left out for the entry All of the select box. *)
Definition search_where (selected_user start_str end_str : string)
  (r : row) : bool :=
  (if String.eqb selected_user "All" then true
   else Sqlite.text_eq (username r) selected_user)
  && Sqlite.between (Sqlite.substr1 (checkin_time r) 10) start_str end_str.

Definition search (selected_user : string) (date_from date_to : date)
  (d : db) : list row :=
  let start_str := date_strftime DATE_FORMAT date_from in
  let end_str := date_strftime DATE_FORMAT date_to in
  Sqlite.order_by_id_desc
    (Sqlite.select (search_where selected_user start_str end_str) (rows d)).

(* ------------------------------------------------------------------ *)
(** * Properties of states and of runs *)


(** The number of open records of a username. *)
Definition open_count (u : string) (d : db) : nat :=
  length (filter (open_for u) (rows d)).

Definition at_most_one_open (d : db) : Prop :=
  forall u, (open_count u d <= 1)%nat.

(** The states the two buttons lead to, from the empty table. *)
Inductive reachable : db -> Prop :=
| reach_empty : reachable empty_db
| reach_check_in now lookup u remark d :
    reachable d -> reachable (snd (check_in now lookup u remark d))
| reach_check_out now lookup u remark d :
    reachable d -> reachable (snd (check_out now lookup u remark d)).

(** The same, when nobody checks in under a name that has an open
    record. *)
Inductive reachable_in_turn : db -> Prop :=
| turn_empty : reachable_in_turn empty_db
| turn_check_in now lookup u remark d :
    reachable_in_turn d -> open_count u d = 0%nat ->
    reachable_in_turn (snd (check_in now lookup u remark d))
| turn_check_out now lookup u remark d :
    reachable_in_turn d ->
    reachable_in_turn (snd (check_out now lookup u remark d)).

(** Check-in under [u], with the record it adds holding the very
    coordinates the resolver returned. *)
Definition stores_resolver_result (now : datetime) (lookup : py geo)
  (u remark : string) (d : db) : Prop :=
  exists lat lon addr t,
    get_ip_location lookup = Returns (lat, lon, addr) /\
    t = strftime TIMESTAMP_FORMAT now /\
    check_in now lookup u remark d
    = (success_checked_in t addr,
       {| rows := (rows d ++
            [ {| id := Sqlite.next_id d;
                 username := Some u;
                 latitude := lat;
                 longitude := lon;
                 address := Some addr;
                 checkin_time := Some t;
                 checkin_remark := Some remark;
                 checkin_latitude := lat;
                 checkin_longitude := lon;
                 checkout_time := None;
                 checkout_remark := None;
                 checkout_latitude := None;
                 checkout_longitude := None |} ])%list;
          seq := Sqlite.next_id d |}).

(** A lookup whose latitude is not a number. *)
Definition nan_lookup : py geo :=
  Returns {| latlng := Returns (LatLngList [FloatOk PrimFloat.nan;
                                            FloatOk 77.6%float]);
             city := Returns (AttrStr "Bengaluru");
             state := Returns (AttrStr "KA");
             country := Returns (AttrStr "India") |}.

(** Check-out under [u], when [u] has an open record: the open record of
    [u] with the highest id gets the four check-out values (the
    coordinates as the table stores them), and nothing else changes. *)
Definition closes_latest_open (now : datetime) (lookup : py geo)
  (u remark : string) (d : db) : Prop :=
  pk_unique d ->
  (exists r, In r (rows d) /\ username r = Some u /\ checkout_time r = None) ->
  exists pre r post lat lon addr,
    rows d = (pre ++ r :: post)%list /\
    username r = Some u /\ checkout_time r = None /\
    (forall r', In r' (rows d) -> username r' = Some u ->
                checkout_time r' = None -> id r' <= id r) /\
    get_ip_location lookup = Returns (lat, lon, addr) /\
    check_out now lookup u remark d =
      (success_checked_out (strftime TIMESTAMP_FORMAT now),
       {| rows := (pre ++
            {| id := id r;
               username := username r;
               latitude := latitude r;
               longitude := longitude r;
               address := address r;
               checkin_time := checkin_time r;
               checkin_remark := checkin_remark r;
               checkin_latitude := checkin_latitude r;
               checkin_longitude := checkin_longitude r;
               checkout_time := Some (strftime TIMESTAMP_FORMAT now);
               checkout_remark := Some remark;
               checkout_latitude := Sqlite.real lat;
               checkout_longitude := Sqlite.real lon |} :: post)%list;
          seq := seq d |}).

(** Check-out under [u], when [u] has no open record: NotFound, and the
    table as it was. *)
Definition not_found_unchanged (now : datetime) (lookup : py geo)
  (u remark : string) (d : db) : Prop :=
  (forall r, In r (rows d) -> username r = Some u ->
             checkout_time r = None -> False) ->
  check_out now lookup u remark d = (NotFound, d).

(** The example of the specification. *)
Definition bengaluru : py geo :=
  Returns {| latlng := Returns (LatLngList [FloatOk 12.9%float;
                                            FloatOk 77.6%float]);
             city := Returns (AttrStr "Bengaluru");
             state := Returns (AttrStr "KA");
             country := Returns (AttrStr "India") |}.

Definition nine_o_clock : datetime := mkDatetime (mkDate 2024 1 1) 9 0 0.
Definition five_o_clock : datetime := mkDatetime (mkDate 2024 1 1) 17 0 0.

(** Descending order of ids. *)
Definition id_desc (a b : row) : Prop := id b <= id a.

(** The expected columns a table lacks, in the order of [new_cols]. *)
Definition missing_from (cols : list string) (items : list column)
  : list column :=
  filter (fun c => negb (mem (fst c) cols)) items.

(** An expected column that [col not in cols] takes for missing and the
    table has under another spelling. *)
Definition clash (cols : list string) (c : column) : bool :=
  negb (mem (fst c) cols) && has_name (fst c) cols.

(** A table of an earlier version that spells two columns with a
    capital. *)
Definition legacy_capitalised : list column :=
  [ ("id", "INTEGER PRIMARY KEY AUTOINCREMENT");
    ("username", "TEXT");
    ("Latitude", "REAL");
    ("Longitude", "REAL");
    ("address", "TEXT");
    ("checkin_time", "TEXT");
    ("checkout_time", "TEXT") ].

(** The example of the specification: alice, checked in at nine. *)
Definition alice_checked_in : db :=
  snd (check_in nine_o_clock bengaluru "alice" "start" empty_db).

(** alice checked in at nine, then bob, then alice once more: two open
    records of alice, ids 1 and 3, and one of bob between them. *)
Definition alice_bob_alice : db :=
  snd (check_in nine_o_clock bengaluru "alice" "again"
         (snd (check_in nine_o_clock bengaluru "bob" "start"
                 alice_checked_in))).

(** A table whose only record is open and stands under a name made of
    one space: a row no check-in of this program writes, but one the
    table can hold. *)
Definition blank_named_open : db :=
  {| rows := [ {| id := 1;
                  username := Some " ";
                  latitude := None;
                  longitude := None;
                  address := Some "Unknown";
                  checkin_time := Some "2024-01-01 09:00:00";
                  checkin_remark := Some "start";
                  checkin_latitude := None;
                  checkin_longitude := None;
                  checkout_time := None;
                  checkout_remark := None;
                  checkout_latitude := None;
                  checkout_longitude := None |} ];
     seq := 1 |}.

Open Scope list_scope.

(** The record a check-in under [u] writes is out of reach under any
    other name [v]: the SELECT of the check-out finds what it found
    before, the check-out leaves the record in the table as it is, and
    neither the history nor a search under [v] lists it. *)
Definition out_of_reach (u v : string) (d : db) : Prop :=
  forall (now now' : datetime) (lookup lookup' : py geo)
         (remark remark' : string),
    let d1 := snd (check_in now lookup u remark d) in
    exists r,
      rows d1 = rows d ++ [r] /\
      username r = Some u /\ checkout_time r = None /\
      select_open_id v d1 = select_open_id v d /\
      In r (rows (snd (check_out now' lookup' v remark' d1))) /\
      (forall h, history v d1 = Some h -> ~ In r h) /\
      (forall date_from date_to,
          v <> "All" -> ~ In r (search v date_from date_to d1)).

(* ------------------------------------------------------------------ *)
(** * The rest of the program *)

(** Lines 100-101: what every run of the script starts with. *)
Definition startup (s : schema) (d : db) : sql_error + (schema * db) :=
  migrate_columns (init_db s) d.

(** The columns the statements of the handlers name: the INSERT of the
    check-in (line 119), and with [id] those of the UPDATE and of the
    SELECTs. *)
Definition insert_columns : list string :=
  [ "username"; "latitude"; "longitude"; "checkin_latitude";
    "checkin_longitude"; "address"; "checkin_time"; "checkin_remark";
    "checkout_time"; "checkout_remark"; "checkout_latitude";
    "checkout_longitude" ].

(** [a <= b] on [date]: by year, then month, then day. *)
Definition date_leb (a b : date) : bool :=
  (year a <? year b)
  || (year a =? year b)
     && ((month a <? month b)
         || (month a =? month b) && (day a <=? day b)).

(** [prepare_map_df]: a frame is the list of its rows; [lat_col] and
    [lon_col] are REAL columns, given by what they hold in a row. *)
Record map_row := mkMapRow { lat : float; lon : float; record : row }.

(** [pd.to_numeric(..., errors='coerce')] on a cell of a REAL column: a
    number stays, NULL becomes NaN. *)
Definition to_numeric (x : option float) : float :=
  match x with
  | Some f => f
  | None => PrimFloat.nan
  end.

(** [dropna(subset=[lat_col, lon_col])] *)
Definition dropna (df : list map_row) : list map_row :=
  filter (fun p => negb (PrimFloat.is_nan (lat p))
                   && negb (PrimFloat.is_nan (lon p))) df.

Definition prepare_map_df (df : list row)
  (lat_col lon_col : row -> option float) : list map_row :=
  dropna (map (fun r => {| lat := to_numeric (lat_col r);
                           lon := to_numeric (lon_col r);
                           record := r |}) df).

(** What a map section of a view shows: the map, or the note that there
    is no valid location. *)
Inductive map_section :=
| st_map (points : list map_row)
| st_info_no_valid_location.

(** A map section (lines 162-167, 169-174 and 227-232, 234-239).  It
    stands under [if not df.empty]: for an empty frame it does not run. *)
Definition show_map (df : list row) (lat_col lon_col : row -> option float)
  : option map_section :=
  match df with
  | [] => None
  | _ :: _ =>
      Some (match prepare_map_df df lat_col lon_col with
            | [] => st_info_no_valid_location
            | points => st_map points
            end)
  end.

(** SELECT DISTINCT username FROM attendance: each value once, NULL
    included, in the order of first appearance. *)
Fixpoint distinct (seen xs : list (option string)) : list (option string) :=
  match xs with
  | [] => []
  | x :: rest =>
      if existsb (fun y => match x, y with
                           | Some a, Some b => String.eqb a b
                           | None, None => true
                           | _, _ => false
                           end) seen
      then distinct seen rest
      else x :: distinct (x :: seen) rest
  end.

(** [all_users]: the distinct usernames that are truthy (line 201), and
    the entries of the select box (line 202). *)
Definition all_users (d : db) : list string :=
  present (distinct [] (map username (rows d))).

Definition user_options (d : db) : list string := "All" :: all_users d.

(** The admin credentials and the session flag. *)
Definition ADMIN_USERNAME : string := "admin".
Definition ADMIN_PASSWORD : string := "12345".

(** [st.session_state], by the one key the program uses: the key is
    missing, or holds a bool. *)
Definition session_state := option bool.

(** [st.session_state.get(admin_logged_in, False)] *)
Definition admin_logged_in (s : session_state) : bool :=
  match s with
  | Some b => b
  | None => false
  end.

(** The widgets of the admin view, as one run of the script reads them. *)
Record admin_widgets := mkAdminWidgets
  { admin_user : string;
    admin_pass : string;
    login_clicked : bool;
    logout_clicked : bool;
    w_selected_user : string;
    w_date_from : date;
    w_date_to : date }.

(** What one run of the script in admin mode ends with. *)
Inductive admin_screen :=
| login_form
| login_rejected                       (* the form and st.error *)
| dashboard (records : list row).

Inductive script_end :=
| Rerun                                (* st.experimental_rerun() *)
| Done (screen : admin_screen).

(** One run of the admin branch (lines 180-224). *)
Definition admin_script (s : session_state) (w : admin_widgets) (d : db)
  : session_state * script_end :=
  if negb (admin_logged_in s) then
    if login_clicked w then
      if String.eqb (admin_user w) ADMIN_USERNAME
         && String.eqb (admin_pass w) ADMIN_PASSWORD
      then (Some true, Rerun)
      else (s, Done login_rejected)
    else (s, Done login_form)
  else
    if logout_clicked w then (Some false, Rerun)
    else (s, Done (dashboard
                     (search (w_selected_user w) (w_date_from w)
                        (w_date_to w) d))).

(** A rerun reads the widgets again; a button reads as not clicked. *)
Definition released (w : admin_widgets) : admin_widgets :=
  {| admin_user := admin_user w;
     admin_pass := admin_pass w;
     login_clicked := false;
     logout_clicked := false;
     w_selected_user := w_selected_user w;
     w_date_from := w_date_from w;
     w_date_to := w_date_to w |}.

(** A user interaction in admin mode: the script runs, and runs again
    while it asks for a rerun. [fuel] bounds the number of runs. *)
Fixpoint admin_interaction (fuel : nat) (s : session_state)
  (w : admin_widgets) (d : db) : option (session_state * admin_screen) :=
  match fuel with
  | O => None
  | S fuel' =>
      match admin_script s w d with
      | (s', Done screen) => Some (s', screen)
      | (s', Rerun) => admin_interaction fuel' s' (released w) d
      end
  end.

(** The session flag after a sequence of interactions. *)
Fixpoint admin_session (s : session_state)
  (steps : list (admin_widgets * db)) : session_state :=
  match steps with
  | [] => s
  | (w, d) :: rest =>
      match admin_interaction 2 s w d with
      | Some (s', _) => admin_session s' rest
      | None => s
      end
  end.

(** A coordinate as a REAL column can hold it: NULL, or a number that is
    neither NaN nor negative zero. *)
Definition storable (x : option float) : Prop :=
  match x with
  | Some f => PrimFloat.is_nan f = false /\ f <> PrimFloat.neg_zero
  | None => True
  end.

Definition coordinates_paired (a b : option float) : Prop :=
  a = None <-> b = None.

(** A record as the handlers leave it. *)
Record record_ok (r : row) : Prop := mkRecordOk
  { ok_username : exists u, username r = Some u /\ blank u = false;
    ok_legacy : latitude r = checkin_latitude r /\
                longitude r = checkin_longitude r;
    ok_checkin_stored :
      storable (checkin_latitude r) /\ storable (checkin_longitude r);
    ok_address : exists a, address r = Some a /\ Py.truthy a = true;
    ok_checkin_time :
      exists t, checkin_time r = Some t /\ timestamp_shape t;
    ok_checkin_remark : checkin_remark r <> None;
    ok_open :
      checkout_time r = None ->
      checkout_remark r = None /\ checkout_latitude r = None /\
      checkout_longitude r = None;
    ok_closed :
      forall t, checkout_time r = Some t ->
        timestamp_shape t /\ checkout_remark r <> None /\
        storable (checkout_latitude r) /\ storable (checkout_longitude r) }.

(** One click on one of the two buttons. *)
Inductive click (d : db) : db -> Prop :=
| click_check_in now lookup u remark :
    click d (snd (check_in now lookup u remark d))
| click_check_out now lookup u remark :
    click d (snd (check_out now lookup u remark d)).

(** The ids 1, 2, ..., n. *)
Definition ids_upto (n : nat) : list Z := map Z.of_nat (List.seq 1 n).

(** The columns startup does not know of. *)
Definition unmanaged_columns : list string :=
  [ "id"; "username"; "address"; "checkin_time"; "checkout_time" ].

(** Reading the columns of a record that is written out. *)
Ltac row_simpl :=
  cbn [id username latitude longitude address checkin_time checkin_remark
       checkin_latitude checkin_longitude checkout_time checkout_remark
       checkout_latitude checkout_longitude].

(** Ascending order of ids. *)
Definition id_asc (a b : row) : Prop := id a < id b.

(** The order of pairs, from the orders of their halves. *)
Definition lex (c1 c2 : comparison) : comparison :=
  match c1 with
  | Eq => c2
  | _ => c1
  end.

(** A cell that holds a number: not NULL, and not NaN. *)
Definition has_number (x : option float) : bool :=
  match x with
  | Some f => negb (PrimFloat.is_nan f)
  | None => false
  end.

(* ------------------------------------------------------------------ *)
(** * Facts on the Python helpers *)

Lemma lstrip_empty_iff (s : string) :
  Py.lstrip s = EmptyString <-> Py.all_space s.
Proof.
  unfold Py.all_space. induction s as [|c s IH]; simpl.
  - split; [constructor | reflexivity].
  - destruct (Py.is_space c) eqn:E.
    + rewrite IH. split; intro H.
      * constructor; assumption.
      * inversion H; assumption.
    + split; intro H; [discriminate|].
      inversion H; congruence.
Qed.

Lemma rstrip_empty_iff (s : string) :
  Py.rstrip s = EmptyString <-> Py.all_space s.
Proof.
  unfold Py.all_space. induction s as [|c s IH]; simpl.
  - split; [constructor | reflexivity].
  - destruct (Py.rstrip s) eqn:R.
    + destruct (Py.is_space c) eqn:E.
      * split; intro H; [|reflexivity].
        constructor; [assumption | apply IH; reflexivity].
      * split; intro H; [discriminate|]. inversion H; congruence.
    + split; intro H; [discriminate|].
      inversion H as [|? ? _ Hs]. apply IH in Hs. discriminate.
Qed.

Lemma lstrip_head (s : string) :
  match Py.lstrip s with
  | EmptyString => True
  | String c _ => Py.is_space c = false
  end.
Proof.
  induction s as [|c s IH]; simpl; [exact I|].
  destruct (Py.is_space c) eqn:E; [exact IH | exact E].
Qed.

Lemma strip_empty_iff (s : string) :
  Py.strip s = EmptyString <-> Py.all_space s.
Proof.
  unfold Py.strip. split; intro H.
  - apply lstrip_empty_iff. apply rstrip_empty_iff in H.
    pose proof (lstrip_head s) as Hh.
    destruct (Py.lstrip s) as [|c r]; [reflexivity|].
    unfold Py.all_space in H. simpl in H. inversion H; congruence.
  - apply lstrip_empty_iff in H. rewrite H. reflexivity.
Qed.

(** The test of the handlers, [not username.strip()], holds exactly of the
    names made of whitespace only. *)
Lemma blank_iff (u : string) : blank u = true <-> Py.all_space u.
Proof.
  unfold blank. rewrite <- strip_empty_iff.
  destruct (Py.strip u); simpl; split; intro H;
    first [reflexivity | discriminate].
Qed.

Lemma not_blank_iff (u : string) : blank u = false <-> ~ Py.all_space u.
Proof.
  rewrite <- blank_iff. destruct (blank u); split; intro H;
    first [reflexivity | discriminate | congruence | exfalso; auto].
Qed.

(* ------------------------------------------------------------------ *)
(** * Facts on the clock *)

Lemma digit_cases (n : Z) :
  exists k, (k < 10)%nat /\ Z.of_nat k = n mod 10 /\
            digit n = ascii_of_nat (48 + k).
Proof.
  exists (Z.to_nat (n mod 10)).
  pose proof (Z.mod_pos_bound n 10 ltac:(lia)).
  repeat split; [lia | lia].
Qed.

Lemma is_digit_digit (n : Z) : is_digit (digit n) = true.
Proof.
  destruct (digit_cases n) as (k & Hk & _ & ->).
  do 10 (destruct k as [|k]; [reflexivity|]). lia.
Qed.

Lemma digit_value_digit (n : Z) : digit_value (digit n) = n mod 10.
Proof.
  destruct (digit_cases n) as (k & Hk & <- & ->).
  do 10 (destruct k as [|k]; [reflexivity|]). lia.
Qed.

Lemma number_pad2 (n : Z) :
  0 <= n <= 99 -> number [digit (n / 10); digit n] = n.
Proof.
  intros H. unfold number. cbn [fold_left]. rewrite !digit_value_digit.
  Z.div_mod_to_equations. lia.
Qed.

Lemma number_pad4 (n : Z) :
  0 <= n <= 9999 ->
  number [digit (n / 1000); digit (n / 100); digit (n / 10); digit n] = n.
Proof.
  intros H. unfold number. cbn [fold_left]. rewrite !digit_value_digit.
  Z.div_mod_to_equations. lia.
Qed.

(** The timestamp the handlers store has the shape YYYY-MM-DD HH:MM:SS. *)
Lemma strftime_timestamp_shape (t : datetime) :
  timestamp_shape (strftime TIMESTAMP_FORMAT t).
Proof.
  unfold timestamp_shape.
  change (strftime TIMESTAMP_FORMAT t) with
    (pad4 (year (dt_date t)) ++ "-" ++ pad2 (month (dt_date t)) ++ "-"
     ++ pad2 (day (dt_date t)) ++ " " ++ pad2 (hour t) ++ ":"
     ++ pad2 (minute t) ++ ":" ++ pad2 (second t))%string.
  unfold pad4, pad2. cbn [append list_ascii_of_string].
  do 14 eexists. split; [reflexivity|].
  cbn [forallb]. rewrite !is_digit_digit. reflexivity.
Qed.

(** ... and reads back as the time it was made from. *)
Lemma read_strftime (t : datetime) :
  valid_datetime t -> read_timestamp (strftime TIMESTAMP_FORMAT t) = Some t.
Proof.
  destruct t as [[y m d] h n s].
  unfold valid_datetime, valid_date.
  cbn [dt_date year month day hour minute second].
  intros ((Hy & Hm & Hd) & Hh & Hn & Hs).
  change (strftime TIMESTAMP_FORMAT (mkDatetime (mkDate y m d) h n s)) with
    (pad4 y ++ "-" ++ pad2 m ++ "-" ++ pad2 d ++ " " ++ pad2 h ++ ":"
     ++ pad2 n ++ ":" ++ pad2 s)%string.
  unfold pad4, pad2, read_timestamp.
  cbn [append list_ascii_of_string].
  cbn [forallb]. rewrite !is_digit_digit.
  change (Ascii.eqb "-" "-") with true. change (Ascii.eqb " " " ") with true.
  change (Ascii.eqb ":" ":") with true.
  cbn [andb].
  rewrite (number_pad4 y), !number_pad2 by lia. reflexivity.
Qed.

(** The first ten characters of a timestamp are its date. *)
Lemma timestamp_date_prefix (t : datetime) :
  substring 0 10 (strftime TIMESTAMP_FORMAT t)
  = date_strftime DATE_FORMAT (dt_date t).
Proof. reflexivity. Qed.

(* ------------------------------------------------------------------ *)
(** * The location helper *)





Lemma get_ip_location_returns (lookup : py geo) :
  exists lat lon addr, get_ip_location lookup = Returns (lat, lon, addr).
Proof.
  unfold get_ip_location, try_except.
  destruct (locate lookup) as [|[[lat lon] addr]].
  - exists None, None, "Unknown". reflexivity.
  - exists lat, lon, addr. reflexivity.
Qed.



(* ------------------------------------------------------------------ *)
(** * Facts on the statements *)

Section Statements.

Import Sqlite.

Lemma max_id_upper (rs : list row) (r : row) :
  In r rs -> id r <= max_id rs.
Proof.
  induction rs as [|x rs IH]; simpl; [tauto|].
  intros [-> | H]; [lia|]. specialize (IH H). lia.
Qed.

Lemma next_id_fresh (d : db) (r : row) :
  In r (rows d) -> id r < next_id d.
Proof.
  intros H. apply max_id_upper in H. unfold next_id. lia.
Qed.

Lemma next_id_not_in (d : db) : ~ In (next_id d) (map id (rows d)).
Proof.
  intros H. apply in_map_iff in H as (r & E & H).
  apply next_id_fresh in H. lia.
Qed.

Lemma insert_desc_perm (r : row) (rs : list row) :
  Permutation (r :: rs) (insert_desc r rs).
Proof.
  induction rs as [|x rs IH]; simpl; [reflexivity|].
  destruct (id x <=? id r); [reflexivity|].
  rewrite perm_swap. constructor. exact IH.
Qed.

Lemma order_by_id_desc_perm (rs : list row) :
  Permutation rs (order_by_id_desc rs).
Proof.
  induction rs as [|x rs IH]; simpl; [constructor|].
  rewrite <- insert_desc_perm. constructor. exact IH.
Qed.

Lemma order_by_id_desc_in (rs : list row) (r : row) :
  In r (order_by_id_desc rs) <-> In r rs.
Proof.
  split; apply Permutation_in;
    [symmetry|]; apply order_by_id_desc_perm.
Qed.

Lemma insert_desc_sorted (r : row) (rs : list row) :
  StronglySorted id_desc rs -> StronglySorted id_desc (insert_desc r rs).
Proof.
  induction 1 as [|x rs Hs IH Hx]; simpl.
  - repeat constructor.
  - destruct (id x <=? id r) eqn:E.
    + apply Z.leb_le in E. constructor; [constructor; assumption|].
      constructor; [exact E|].
      eapply Forall_impl; [|exact Hx]. unfold id_desc. intros; lia.
    + apply Z.leb_gt in E. constructor; [exact IH|].
      eapply Permutation_Forall; [apply insert_desc_perm|].
      constructor; [unfold id_desc; lia | exact Hx].
Qed.

Lemma order_by_id_desc_sorted (rs : list row) :
  StronglySorted id_desc (order_by_id_desc rs).
Proof.
  induction rs as [|x rs IH]; simpl; [constructor|].
  apply insert_desc_sorted, IH.
Qed.

(** The first row of a descending list has the largest id. *)
Lemma sorted_head_max (x : row) (rs : list row) (r : row) :
  StronglySorted id_desc (x :: rs) -> In r (x :: rs) -> id r <= id x.
Proof.
  intros H [-> | Hin]; [lia|].
  inversion H as [|? ? _ Hall]; subst.
  rewrite Forall_forall in Hall. apply Hall, Hin.
Qed.

(** UPDATE ... WHERE id=? touches the one row of that id. *)
Lemma update_by_id (set_ : row -> row) (pre post : list row) (r : row) :
  NoDup (map id (pre ++ r :: post)) ->
  update set_ (fun x => id x =? id r) (pre ++ r :: post)
  = (pre ++ set_ r :: post)%list.
Proof.
  intros Hnd. unfold update.
  rewrite map_app. cbn [map]. rewrite Z.eqb_refl.
  rewrite map_app in Hnd. cbn [map] in Hnd.
  apply NoDup_remove_2 in Hnd.
  assert (Hout : forall l, (forall x, In x l -> id x <> id r) ->
            map (fun x => if id x =? id r then set_ x else x) l = l).
  { induction l as [|y l IH]; intros Hl; simpl; [reflexivity|].
    rewrite IH by (intros; apply Hl; right; assumption).
    destruct (Z.eqb_spec (id y) (id r)) as [E|_]; [|reflexivity].
    exfalso. apply (Hl y); [left; reflexivity | exact E]. }
  rewrite !Hout; [reflexivity| |];
    intros x Hx E; apply Hnd, in_or_app;
    [right|left]; apply in_map_iff; exists x; auto.
Qed.

End Statements.

Lemma open_for_iff (u : string) (r : row) :
  open_for u r = true <-> username r = Some u /\ checkout_time r = None.
Proof.
  unfold open_for, Sqlite.text_eq, Sqlite.is_null.
  destruct (username r) as [s|], (checkout_time r) as [t|]; simpl;
    rewrite ?andb_true_r, ?andb_false_r, ?String.eqb_eq;
    split; try (intros [? ?]); try intros ?; try congruence; try discriminate;
    split; congruence.
Qed.

(** What the SELECT of the check-out handler finds: the highest id among
    the open records of the name, or nothing when there is none. *)
Lemma select_open_id_some (u : string) (d : db) (i : Z) :
  select_open_id u d = Some i ->
  exists r, In r (rows d) /\ open_for u r = true /\ id r = i /\
            forall r', In r' (rows d) -> open_for u r' = true -> id r' <= i.
Proof.
  unfold select_open_id, Sqlite.fetchone, Sqlite.select.
  pose proof (order_by_id_desc_sorted (filter (open_for u) (rows d)))
    as Hs.
  pose proof (order_by_id_desc_in (filter (open_for u) (rows d)))
    as Hin.
  destruct (Sqlite.order_by_id_desc (filter (open_for u) (rows d)))
    as [|x l]; simpl; [discriminate|].
  intros [= <-]. exists x.
  destruct (proj1 (filter_In _ _ _) (proj1 (Hin x) (or_introl eq_refl)))
    as [Hx Ho].
  repeat split; try assumption.
  intros r' Hr' Ho'.
  apply (sorted_head_max x l r' Hs).
  apply Hin, filter_In. split; assumption.
Qed.

Lemma select_open_id_none (u : string) (d : db) :
  select_open_id u d = None <->
  forall r, In r (rows d) -> open_for u r = false.
Proof.
  unfold select_open_id, Sqlite.fetchone, Sqlite.select.
  pose proof (order_by_id_desc_in (filter (open_for u) (rows d)))
    as Hin.
  destruct (Sqlite.order_by_id_desc (filter (open_for u) (rows d)))
    as [|x l]; simpl; split; intro H.
  - intros r Hr. destruct (open_for u r) eqn:E; [|reflexivity].
    exfalso. apply (Hin r), filter_In. split; assumption.
  - reflexivity.
  - discriminate.
  - exfalso. destruct (proj1 (filter_In _ _ _) (proj1 (Hin x) (or_introl eq_refl)))
      as [Hx Ho]. rewrite (H x Hx) in Ho. discriminate.
Qed.

(* ------------------------------------------------------------------ *)
(** * Check-in *)

(** C1, as stated, fails: a coordinate that is not a number is stored
    as NULL, so the record does not hold what the resolver returned.
    (alice is no blank name and nine o'clock a time of the clock.) *)
Lemma check_in_nan_stored_as_null :
  ~ (~ Py.all_space "alice" -> valid_datetime nine_o_clock ->
     stores_resolver_result nine_o_clock nan_lookup "alice" "start" empty_db).
Proof.
  intros H.
  destruct H as (lat & lon & addr & t & Hg & _ & Hc).
  - apply not_blank_iff. reflexivity.
  - unfold valid_datetime, valid_date. simpl. lia.
  - change (get_ip_location nan_lookup)
      with (Returns (Some PrimFloat.nan, Some 77.6%float,
                     "Bengaluru, KA, India")) in Hg.
    injection Hg as <- <- <-.
    apply (f_equal (fun x => map checkin_latitude (rows (snd x)))) in Hc.
    vm_compute in Hc. discriminate Hc.
Qed.

(** C1, amended.  Check-in under a name that is not blank adds exactly
    one record, after the rows the table had and under an id none of them
    has, with the name and the remark as entered, the timestamp of the
    clock in the shape YYYY-MM-DD HH:MM:SS, the address the resolver gave,
    its coordinates (twice) as the table stores them (NULL for a
    coordinate that is not a number, zero for negative zero, any other
    number as it is) and the four check-out columns NULL. *)
Theorem check_in_inserts_one_record :
  forall (now : datetime) (lookup : py geo) (u remark : string) (d : db),
    ~ Py.all_space u ->
    valid_datetime now ->
    exists lat lon addr t,
      get_ip_location lookup = Returns (lat, lon, addr) /\
      t = strftime TIMESTAMP_FORMAT now /\
      timestamp_shape t /\ read_timestamp t = Some now /\
      ~ In (Sqlite.next_id d) (map id (rows d)) /\
      check_in now lookup u remark d
      = (success_checked_in t addr,
         {| rows := (rows d ++
              [ {| id := Sqlite.next_id d;
                   username := Some u;
                   latitude := Sqlite.real lat;
                   longitude := Sqlite.real lon;
                   address := Some addr;
                   checkin_time := Some t;
                   checkin_remark := Some remark;
                   checkin_latitude := Sqlite.real lat;
                   checkin_longitude := Sqlite.real lon;
                   checkout_time := None;
                   checkout_remark := None;
                   checkout_latitude := None;
                   checkout_longitude := None |} ])%list;
            seq := Sqlite.next_id d |}) /\
      (forall x, Sqlite.real x = x \/
                 (exists f, x = Some f /\ PrimFloat.is_nan f = true /\
                            Sqlite.real x = None) \/
                 (exists f, x = Some f /\
                            PrimFloat.eqb f PrimFloat.zero = true /\
                            Sqlite.real x = Some PrimFloat.zero)).
Proof.
  intros now lookup u remark d Hu Hnow.
  apply not_blank_iff in Hu.
  destruct (get_ip_location_returns lookup) as (lat & lon & addr & Hg).
  exists lat, lon, addr, (strftime TIMESTAMP_FORMAT now).
  repeat split.
  - exact Hg.
  - apply strftime_timestamp_shape.
  - apply read_strftime, Hnow.
  - apply next_id_not_in.
  - unfold check_in. rewrite Hu, Hg. reflexivity.
  - intros [f|]; [|left; reflexivity]. unfold Sqlite.real.
    destruct (PrimFloat.is_nan f) eqn:E1; [right; left; eauto|].
    destruct (PrimFloat.eqb f PrimFloat.zero) eqn:E2;
      [right; right; eauto | left; reflexivity].
Qed.

Lemma check_in_inserts_one_record_witness :
  ~ Py.all_space "alice" /\ valid_datetime nine_o_clock /\
  exists r,
    rows (snd (check_in nine_o_clock bengaluru "alice" "start" empty_db))
    = [r] /\
    id r = 1 /\ username r = Some "alice" /\
    checkin_time r = Some "2024-01-01 09:00:00" /\
    address r = Some "Bengaluru, KA, India" /\
    checkin_latitude r = Some 12.9%float /\ checkout_time r = None.
Proof.
  assert (Hu : ~ Py.all_space "alice") by (apply not_blank_iff; reflexivity).
  assert (Hn : valid_datetime nine_o_clock)
    by (unfold valid_datetime, valid_date; simpl; lia).
  split; [exact Hu|]. split; [exact Hn|].
  destruct (check_in_inserts_one_record nine_o_clock bengaluru
              "alice" "start" empty_db Hu Hn)
    as (lat & lon & addr & t & Hg & Ht & _ & _ & _ & Hc & _).
  rewrite Hc. cbn [snd rows app]. eexists. split; [reflexivity|].
  cbn [id username checkin_time address checkin_latitude checkout_time].
  subst t. injection Hg as <- <- <-.
  repeat split.
Defined.

(** C4.  Check-in under a blank name (empty, or whitespace only) shows
    the validation error and inserts nothing: the table is as it was. *)
Theorem check_in_blank_rejected :
  forall (now : datetime) (lookup : py geo) (u remark : string) (d : db),
    Py.all_space u ->
    check_in now lookup u remark d = (ValidationError, d).
Proof.
  intros now lookup u remark d Hu.
  apply blank_iff in Hu. unfold check_in. rewrite Hu. reflexivity.
Qed.

Lemma check_in_blank_rejected_witness :
  Py.all_space "   " /\
  check_in nine_o_clock bengaluru "   " "start" empty_db
  = (ValidationError, empty_db).
Proof.
  assert (Hu : Py.all_space "   ") by (apply blank_iff; reflexivity).
  split; [exact Hu|].
  exact (check_in_blank_rejected nine_o_clock bengaluru "   " "start"
           empty_db Hu).
Defined.

(* ------------------------------------------------------------------ *)
(** * Check-out *)

(** C2, as stated, fails: the handler tests the name before it looks at
    the table, so under a blank name it closes nothing, open record or
    not. *)
Lemma check_out_blank_name_closes_nothing :
  ~ closes_latest_open five_o_clock bengaluru " " "done" blank_named_open.
Proof.
  intros H.
  destruct H as (pre & r & post & lat & lon & addr & _ & _ & _ & _ & _ & Hc).
  - repeat constructor. simpl. tauto.
  - eexists. split; [left; reflexivity|]. split; reflexivity.
  - change (check_out five_o_clock bengaluru " " "done" blank_named_open)
      with (error_enter_name, blank_named_open) in Hc.
    discriminate Hc.
Qed.

(** C2, amended.  Under a name that is not blank and has an open record,
    check-out takes the open record of that name with the highest id,
    sets its four check-out columns (timestamp of the clock, remark,
    coordinates of the resolver) and leaves its other columns, the other
    rows, their order and the id counter as they were. *)
Theorem check_out_closes_latest_open :
  forall (now : datetime) (lookup : py geo) (u remark : string) (d : db),
    ~ Py.all_space u ->
    closes_latest_open now lookup u remark d.
Proof.
  intros now lookup u remark d Hu Hpk (r0 & Hin0 & Hn0 & Ho0).
  apply not_blank_iff in Hu.
  destruct (select_open_id u d) as [i|] eqn:Hsel.
  - destruct (select_open_id_some u d i Hsel)
      as (r & Hin & Ho & Hid & Hmax).
    subst i. apply open_for_iff in Ho as [Hn Ho].
    destruct (in_split _ _ Hin) as (pre & post & Hrows).
    destruct (get_ip_location_returns lookup) as (lat & lon & addr & Hg).
    exists pre, r, post, lat, lon, addr.
    repeat split; try assumption.
    + intros r' Hr' Hn' Ho'. apply Hmax; [assumption|].
      apply open_for_iff. split; assumption.
    + unfold check_out. rewrite Hu, Hsel, Hg.
      unfold update_checkout. do 2 f_equal.
      unfold pk_unique in Hpk. rewrite Hrows in Hpk |- *.
      apply (update_by_id
               (set_checkout (strftime TIMESTAMP_FORMAT now) remark lat lon)
               pre post r Hpk).
  - exfalso.
    pose proof (proj1 (select_open_id_none u d) Hsel r0 Hin0) as Hf.
    assert (open_for u r0 = true) as Ht
        by (apply open_for_iff; split; assumption).
    congruence.
Qed.

Lemma check_out_closes_latest_open_witness :
  ~ Py.all_space "alice" /\ pk_unique alice_bob_alice /\
  (exists r, In r (rows alice_bob_alice) /\
             username r = Some "alice" /\ checkout_time r = None) /\
  exists r1 r2 r3 r3',
    rows alice_bob_alice = [r1; r2; r3] /\
    (id r1 = 1 /\ username r1 = Some "alice" /\ checkout_time r1 = None) /\
    (id r2 = 2 /\ username r2 = Some "bob" /\ checkout_time r2 = None) /\
    (id r3 = 3 /\ username r3 = Some "alice" /\ checkout_time r3 = None) /\
    check_out five_o_clock bengaluru "alice" "done" alice_bob_alice
    = (success_checked_out "2024-01-01 17:00:00",
       {| rows := [r1; r2; r3']; seq := 3 |}) /\
    id r3' = 3 /\ username r3' = Some "alice" /\
    checkin_time r3' = Some "2024-01-01 09:00:00" /\
    checkin_remark r3' = Some "again" /\
    checkout_time r3' = Some "2024-01-01 17:00:00" /\
    checkout_remark r3' = Some "done" /\
    checkout_latitude r3' = Some 12.9%float.
Proof.
  assert (Hu : ~ Py.all_space "alice") by (apply not_blank_iff; reflexivity).
  assert (Hpk : pk_unique alice_bob_alice).
  { unfold pk_unique. change (map id (rows alice_bob_alice)) with [1; 2; 3].
    repeat constructor; simpl; intuition discriminate. }
  assert (Hex : exists r, In r (rows alice_bob_alice) /\
                  username r = Some "alice" /\ checkout_time r = None)
    by (eexists; split; [left; reflexivity | split; reflexivity]).
  split; [exact Hu|]. split; [exact Hpk|]. split; [exact Hex|].
  destruct (check_out_closes_latest_open five_o_clock bengaluru
              "alice" "done" alice_bob_alice Hu Hpk Hex)
    as (pre & r & post & lat & lon & addr & Hrows & Hn & _ & Hmax & Hg & Hc).
  injection Hg as <- <- <-.
  assert (Hshape : exists x y, pre = [x; y] /\ post = []).
  { destruct pre as [|x [|y [|z pre]]].
    - exfalso. injection Hrows as <- <-.
      specialize (Hmax _ (or_intror (or_intror (or_introl eq_refl)))
                    eq_refl eq_refl).
      exact (Hmax eq_refl).
    - exfalso. injection Hrows as _ <- _. discriminate Hn.
    - injection Hrows as _ _ _ <-. exists x, y. split; reflexivity.
    - exfalso. injection Hrows as _ _ _ Hrest.
      destruct pre; discriminate Hrest. }
  destruct Hshape as (x & y & -> & ->).
  injection Hrows as <- <- <-.
  do 4 eexists. split; [reflexivity|].
  split; [repeat split|]. split; [repeat split|]. split; [repeat split|].
  split; [exact Hc|]. repeat split.
Defined.

(** C3, as stated, fails: under an empty name the handler shows the
    validation error, not the warning, although the name has no open
    record. *)
Lemma check_out_empty_name_not_NotFound :
  ~ not_found_unchanged five_o_clock bengaluru "" "done" empty_db.
Proof.
  intros H.
  assert (Hc : check_out five_o_clock bengaluru "" "done" empty_db
               = (NotFound, empty_db)) by (apply H; intros r []).
  discriminate Hc.
Qed.

(** C3, amended.  When the name has no open record, check-out leaves the
    table as it was; it shows the warning (NotFound) when the name is not
    blank, and the validation error when it is. *)
Theorem check_out_without_open_record :
  forall (now : datetime) (lookup : py geo) (u remark : string) (d : db),
    (forall r, In r (rows d) -> username r = Some u ->
               checkout_time r = None -> False) ->
    (~ Py.all_space u -> check_out now lookup u remark d = (NotFound, d)) /\
    (Py.all_space u ->
     check_out now lookup u remark d = (ValidationError, d)).
Proof.
  intros now lookup u remark d Hnone. split; intros Hu.
  - apply not_blank_iff in Hu. unfold check_out. rewrite Hu.
    replace (select_open_id u d) with (@None Z); [reflexivity|].
    symmetry. apply select_open_id_none. intros r Hr.
    destruct (open_for u r) eqn:E; [|reflexivity].
    apply open_for_iff in E as [Hn Ho]. exfalso. eauto.
  - apply blank_iff in Hu. unfold check_out. rewrite Hu. reflexivity.
Qed.

Lemma check_out_without_open_record_witness :
  (forall r, In r (rows alice_checked_in) -> username r = Some "bob" ->
             checkout_time r = None -> False) /\
  ~ Py.all_space "bob" /\
  check_out five_o_clock bengaluru "bob" "done" alice_checked_in
  = (NotFound, alice_checked_in).
Proof.
  assert (Hn : forall r, In r (rows alice_checked_in) ->
                 username r = Some "bob" -> checkout_time r = None -> False).
  { intros r [<- | []] Hb _. discriminate Hb. }
  assert (Hu : ~ Py.all_space "bob") by (apply not_blank_iff; reflexivity).
  split; [exact Hn|]. split; [exact Hu|].
  exact (proj1 (check_out_without_open_record five_o_clock bengaluru
                  "bob" "done" alice_checked_in Hn) Hu).
Defined.

(* ------------------------------------------------------------------ *)
(** * The backfill of [migrate_columns] *)

Lemma needs_backfill_iff (r : row) :
  needs_backfill r = true <->
  (latitude r = None \/ longitude r = None) /\
  checkin_latitude r <> None /\ checkin_longitude r <> None.
Proof.
  unfold needs_backfill, Sqlite.is_null.
  destruct (latitude r), (longitude r), (checkin_latitude r),
    (checkin_longitude r); simpl; split;
    try discriminate; try (intros _; repeat split; auto; discriminate);
    intros ([H|H] & H1 & H2); congruence.
Qed.

Lemma backfill_settles (r : row) :
  needs_backfill r = true -> needs_backfill (set_legacy_location r) = false.
Proof.
  unfold needs_backfill, set_legacy_location, Sqlite.is_null. simpl.
  destruct (latitude r), (longitude r), (checkin_latitude r),
    (checkin_longitude r); simpl; intros H; try discriminate; reflexivity.
Qed.

(** A pair of which only one half is NULL counts as not set: the
    backfill writes both halves, the one that was there included. *)
Example backfill_half_set_pair :
  forall r : row,
    latitude r = Some 1%float -> longitude r = None ->
    checkin_latitude r = Some 2%float -> checkin_longitude r = Some 3%float ->
    latitude (if needs_backfill r then set_legacy_location r else r)
    = Some 2%float.
Proof.
  intros r Hlat Hlon Hclat Hclon.
  unfold needs_backfill. rewrite Hlat, Hlon, Hclat, Hclon. simpl.
  exact Hclat.
Qed.

(** C6.  The backfill copies the check-in coordinates into latitude and
    longitude in exactly the rows where these are NULL (one of them at
    least, as the statement tests it) and the check-in coordinates are
    both there; it leaves the other columns of those rows, all other rows,
    the order of the rows and the id counter as they were; and a second
    run changes nothing more. *)
Theorem backfill_exact_and_idempotent :
  forall d : db,
    seq (backfill d) = seq d /\
    length (rows (backfill d)) = length (rows d) /\
    (forall i r,
        nth_error (rows d) i = Some r ->
        exists r',
          nth_error (rows (backfill d)) i = Some r' /\
          ((latitude r = None \/ longitude r = None) /\
           checkin_latitude r <> None /\ checkin_longitude r <> None ->
           r' = {| id := id r;
                   username := username r;
                   latitude := checkin_latitude r;
                   longitude := checkin_longitude r;
                   address := address r;
                   checkin_time := checkin_time r;
                   checkin_remark := checkin_remark r;
                   checkin_latitude := checkin_latitude r;
                   checkin_longitude := checkin_longitude r;
                   checkout_time := checkout_time r;
                   checkout_remark := checkout_remark r;
                   checkout_latitude := checkout_latitude r;
                   checkout_longitude := checkout_longitude r |}) /\
          (~ ((latitude r = None \/ longitude r = None) /\
              checkin_latitude r <> None /\ checkin_longitude r <> None) ->
           r' = r)) /\
    backfill (backfill d) = backfill d.
Proof.
  intros d. unfold backfill, Sqlite.update. cbn [rows seq].
  split; [reflexivity|]. split; [apply length_map|]. split.
  - intros i r Hi. eexists. split.
    + rewrite nth_error_map, Hi. reflexivity.
    + rewrite <- needs_backfill_iff.
      destruct (needs_backfill r); split; intros H;
        first [reflexivity | discriminate | exfalso; auto].
  - f_equal. rewrite map_map. apply map_ext. intros r.
    destruct (needs_backfill r) eqn:E.
    + rewrite backfill_settles by exact E. reflexivity.
    + rewrite E. reflexivity.
Qed.

(* ------------------------------------------------------------------ *)
(** * Open records per name *)

Lemma check_in_rows (now : datetime) (lookup : py geo) (u remark : string)
  (d : db) :
  snd (check_in now lookup u remark d) = d \/
  blank u = false /\
  exists r, rows (snd (check_in now lookup u remark d)) = (rows d ++ [r])%list
            /\ id r = Sqlite.next_id d
            /\ username r = Some u /\ checkout_time r = None.
Proof.
  unfold check_in. destruct (blank u); [left; reflexivity|].
  destruct (get_ip_location lookup) as [|[[lat lon] addr]];
    [left; reflexivity|].
  right. split; [reflexivity|]. eexists. split; [reflexivity|].
  repeat split.
Qed.

Lemma check_out_rows (now : datetime) (lookup : py geo) (u remark : string)
  (d : db) :
  snd (check_out now lookup u remark d) = d \/
  exists i t lat lon,
    select_open_id u d = Some i /\
    snd (check_out now lookup u remark d) = update_checkout t remark lat lon i d.
Proof.
  unfold check_out. destruct (blank u); [left; reflexivity|].
  destruct (select_open_id u d) as [i|]; [|left; reflexivity].
  destruct (get_ip_location lookup) as [|[[lat lon] addr]];
    [left; reflexivity|].
  right. do 4 eexists. split; reflexivity.
Qed.

Lemma open_for_other_name (u v : string) (r : row) :
  username r = Some u -> v <> u -> open_for v r = false.
Proof.
  intros Hr Hv. unfold open_for, Sqlite.text_eq. rewrite Hr.
  destruct (String.eqb_spec u v); [congruence | reflexivity].
Qed.

Lemma open_for_set_checkout (v t remark : string) (lat lon : option float)
  (r : row) :
  open_for v (set_checkout t remark lat lon r) = false.
Proof. unfold open_for. simpl. apply andb_false_r. Qed.

(** A check-out never adds an open record. *)
Lemma update_checkout_open_le (v t remark : string) (lat lon : option float)
  (i : Z) (d : db) :
  (open_count v (update_checkout t remark lat lon i d) <= open_count v d)%nat.
Proof.
  unfold open_count, update_checkout, Sqlite.update. cbn [rows].
  induction (rows d) as [|x l IH]; simpl; [lia|].
  destruct (id x =? i).
  - rewrite open_for_set_checkout. destruct (open_for v x); simpl; lia.
  - destruct (open_for v x); simpl; lia.
Qed.

Lemma update_checkout_ids (t remark : string) (lat lon : option float)
  (i : Z) (d : db) :
  map id (rows (update_checkout t remark lat lon i d)) = map id (rows d).
Proof.
  unfold update_checkout, Sqlite.update. cbn [rows]. rewrite map_map.
  apply map_ext. intros r. destruct (id r =? i); reflexivity.
Qed.

(** The states the two buttons lead to keep the primary key: no id is
    given out twice. *)
Lemma reachable_pk_unique (d : db) : reachable d -> pk_unique d.
Proof.
  unfold pk_unique.
  induction 1 as [| now lookup u remark d Hd IH
                  | now lookup u remark d Hd IH].
  - constructor.
  - destruct (check_in_rows now lookup u remark d)
      as [-> | (_ & r & -> & Hid & _)]; [exact IH|].
    rewrite map_app. cbn [map].
    apply (Permutation_NoDup (Permutation_cons_append _ _)).
    constructor; [|exact IH]. rewrite Hid. apply next_id_not_in.
  - destruct (check_out_rows now lookup u remark d)
      as [-> | (i & t & lat & lon & _ & ->)]; [exact IH|].
    rewrite update_checkout_ids. exact IH.
Qed.

(** ... and hold no record under a blank name: the name test of the
    check-in handler keeps them out. *)
Lemma reachable_names_not_blank (d : db) :
  reachable d ->
  forall r, In r (rows d) -> exists u, username r = Some u /\ blank u = false.
Proof.
  induction 1 as [| now lookup u remark d Hd IH
                  | now lookup u remark d Hd IH]; intros r Hr.
  - destruct Hr.
  - destruct (check_in_rows now lookup u remark d)
      as [E | (Hu & x & E & _ & Hn & _)].
    + rewrite E in Hr. apply IH, Hr.
    + rewrite E in Hr. apply in_app_or in Hr as [Hr | [<- | []]].
      * apply IH, Hr.
      * exists u. split; assumption.
  - destruct (check_out_rows now lookup u remark d)
      as [E | (i & t & lat & lon & _ & E)]; rewrite E in Hr.
    + apply IH, Hr.
    + unfold update_checkout, Sqlite.update in Hr. cbn [rows] in Hr.
      apply in_map_iff in Hr as (x & <- & Hx).
      destruct (IH x Hx) as (w & Hw & Hb).
      exists w. split; [|exact Hb].
      destruct (id x =? i); [exact Hw | exact Hw].
Qed.

(** C7, as stated, fails: the check-in handler does not look for an open
    record, so two check-ins in a row under one name leave two. *)
Lemma two_check_ins_two_open_records :
  ~ (forall d, reachable d -> at_most_one_open d).
Proof.
  intros H.
  specialize (H _ (reach_check_in five_o_clock bengaluru "alice" "again" _
                     (reach_check_in nine_o_clock bengaluru "alice" "start" _
                        reach_empty)) "alice").
  vm_compute in H. lia.
Qed.

(** C7, amended.  As long as nobody checks in under a name that has an
    open record, every state the two buttons lead to from the empty table
    has at most one open record per name. *)
Theorem at_most_one_open_in_turn :
  forall d : db, reachable_in_turn d -> at_most_one_open d.
Proof.
  induction 1 as [| now lookup u remark d Hd IH Hfree
                  | now lookup u remark d Hd IH]; intros v.
  - unfold open_count. simpl. lia.
  - destruct (check_in_rows now lookup u remark d)
      as [-> | (_ & r & Hrows & _ & Hn & _)]; [apply IH|].
    unfold open_count in *. rewrite Hrows, filter_app, length_app. simpl.
    destruct (String.eqb_spec v u) as [-> | Hv].
    + rewrite Hfree. destruct (open_for u r); simpl; lia.
    + rewrite (open_for_other_name u v r Hn Hv). specialize (IH v).
      unfold open_count in IH. simpl. lia.
  - destruct (check_out_rows now lookup u remark d)
      as [-> | (i & t & lat & lon & _ & ->)]; [apply IH|].
    pose proof (update_checkout_open_le v t remark lat lon i d).
    specialize (IH v). lia.
Qed.

Lemma at_most_one_open_in_turn_witness :
  reachable_in_turn
    (snd (check_in five_o_clock bengaluru "alice" "back"
            (snd (check_out five_o_clock bengaluru "alice" "done"
                    alice_checked_in)))) /\
  at_most_one_open
    (snd (check_in five_o_clock bengaluru "alice" "back"
            (snd (check_out five_o_clock bengaluru "alice" "done"
                    alice_checked_in)))).
Proof.
  assert (H : reachable_in_turn
    (snd (check_in five_o_clock bengaluru "alice" "back"
            (snd (check_out five_o_clock bengaluru "alice" "done"
                    alice_checked_in))))).
  { apply turn_check_in; [|reflexivity].
    apply turn_check_out.
    apply turn_check_in; [apply turn_empty | reflexivity]. }
  split; [exact H | exact (at_most_one_open_in_turn _ H)].
Defined.

(* ------------------------------------------------------------------ *)
(** * The admin search *)

Lemma search_where_iff (sel lo hi : string) (r : row) :
  search_where sel lo hi r = true <->
  (sel = "All" \/ username r = Some sel) /\
  exists t, checkin_time r = Some t /\
            String.leb lo (substring 0 10 t) = true /\
            String.leb (substring 0 10 t) hi = true.
Proof.
  unfold search_where, Sqlite.between, Sqlite.substr1, Sqlite.text_eq.
  rewrite andb_true_iff.
  assert (HA : (if String.eqb sel "All" then true
                else match username r with
                     | Some s => String.eqb s sel
                     | None => false
                     end) = true <->
               (sel = "All" \/ username r = Some sel)).
  { destruct (String.eqb_spec sel "All") as [E|E].
    - split; auto.
    - destruct (username r) as [s|].
      + rewrite String.eqb_eq. split; [intros ->; auto|].
        intros [?|[= ->]]; [contradiction | reflexivity].
      + split; [discriminate|]. intros [?|?]; [contradiction|discriminate]. }
  assert (HB : match option_map (substring 0 10) (checkin_time r) with
               | Some s => String.leb lo s && String.leb s hi
               | None => false
               end = true <->
               exists t, checkin_time r = Some t /\
                 String.leb lo (substring 0 10 t) = true /\
                 String.leb (substring 0 10 t) hi = true).
  { destruct (checkin_time r) as [t|]; simpl.
    - rewrite andb_true_iff. split.
      + intros [? ?]. eauto.
      + intros (t' & [= <-] & ? & ?). auto.
    - split; [discriminate|]. intros (t' & ? & _). discriminate. }
  tauto.
Qed.

(** C8.  The search returns exactly the records of the table that match
    the filter (any record under All, else the records whose username is
    the selected one) and whose check-in time, cut to ten characters, lies
    between the two formatted dates in the order of strings, both ends
    included; each as often as the table has it; highest id first. *)
Theorem search_exact_newest_first :
  forall (selected_user : string) (date_from date_to : date) (d : db),
    let res := search selected_user date_from date_to d in
    (forall r,
        In r res <->
        In r (rows d) /\
        (selected_user = "All" \/ username r = Some selected_user) /\
        exists t, checkin_time r = Some t /\
          String.leb (date_strftime DATE_FORMAT date_from)
                     (substring 0 10 t) = true /\
          String.leb (substring 0 10 t)
                     (date_strftime DATE_FORMAT date_to) = true) /\
    Permutation res
      (filter (search_where selected_user
                 (date_strftime DATE_FORMAT date_from)
                 (date_strftime DATE_FORMAT date_to)) (rows d)) /\
    StronglySorted (fun a b => id b <= id a) res.
Proof.
  intros sel from to d res. subst res. unfold search, Sqlite.select.
  split; [|split].
  - intros r. rewrite order_by_id_desc_in, filter_In, search_where_iff.
    reflexivity.
  - symmetry. apply order_by_id_desc_perm.
  - apply order_by_id_desc_sorted.
Qed.

(* ------------------------------------------------------------------ *)
(** * The schema manager *)

Lemma mem_iff (col : string) (cols : list string) :
  mem col cols = true <-> In col cols.
Proof.
  unfold mem. rewrite existsb_exists. split.
  - intros (x & Hx & E). apply String.eqb_eq in E. subst. exact Hx.
  - intros H. exists col. split; [exact H | apply String.eqb_refl].
Qed.

Lemma has_name_app_single (col x : string) (cols : list string) :
  has_name col (cols ++ [x]) = has_name col cols || name_eq col x.
Proof.
  unfold has_name. rewrite existsb_app. simpl. rewrite orb_false_r.
  reflexivity.
Qed.

(** A name the table has as it is written, it has in SQLite's eyes. *)
Lemma mem_has_name (col : string) (cols : list string) :
  mem col cols = true -> has_name col cols = true.
Proof.
  intros H. apply mem_iff in H. unfold has_name. apply existsb_exists.
  exists col. split; [exact H | apply String.eqb_refl].
Qed.

(** The loop, on a table whose added columns so far are none of the
    columns it is going to look at: it stops at the first expected column
    that [col not in cols] takes for missing and SQLite for present, and
    adds every missing column before it. *)
Lemma add_missing_runs (cols : list string) (items tbl log : list column) :
  NoDup (map (fun c => lower (fst c)) items) ->
  (forall c, In c items -> mem (fst c) cols = false ->
             has_name (fst c) (map fst tbl) = has_name (fst c) cols) ->
  add_missing cols items {| table := Some tbl; altered := log |}
  = match find (clash cols) items with
    | Some c => inl (DuplicateColumn (fst c))
    | None =>
        inr (tt, {| table := Some (tbl ++ missing_from cols items);
                    altered := log ++ missing_from cols items |})
    end.
Proof.
  revert tbl log.
  induction items as [|[col ty] items IH]; intros tbl log Hnd Hsame.
  - simpl. unfold ret. rewrite !app_nil_r. reflexivity.
  - cbn [map fst] in Hnd. inversion Hnd as [|? ? Hnotin Hnd']; subst.
    cbn [add_missing missing_from filter find fst]. unfold bind, clash.
    cbn [fst].
    destruct (mem col cols) eqn:Hcol; cbn [negb andb].
    + unfold ret. apply IH; [exact Hnd'|].
      intros c Hc. apply Hsame. right. exact Hc.
    + unfold alter_add_column. cbn [table altered].
      pose proof (Hsame (col, ty) (or_introl eq_refl) Hcol) as Hm.
      cbn [fst] in Hm. rewrite Hm.
      destruct (has_name col cols) eqn:Hclash; [reflexivity|].
      fold (missing_from cols items).
      rewrite IH; [| exact Hnd' |].
      * fold (clash cols). destruct (find (clash cols) items);
          [reflexivity|]. rewrite <- !app_assoc. reflexivity.
      * intros c Hc Hc'. rewrite map_app. cbn [map fst].
        rewrite has_name_app_single.
        replace (name_eq (fst c) col) with false.
        -- rewrite orb_false_r.
           exact (Hsame c (or_intror Hc) Hc').
        -- symmetry. unfold name_eq. apply String.eqb_neq. intros E.
           apply Hnotin. rewrite <- E.
           apply (in_map (fun c => lower (fst c))), Hc.
Qed.

Lemma new_cols_distinct : NoDup (map (fun c => lower (fst c)) new_cols).
Proof.
  repeat constructor; simpl; intuition discriminate.
Qed.

Lemma missing_from_nil_iff (cols : list string) (items : list column) :
  missing_from cols items = [] <->
  forall c, In c items -> In (fst c) cols.
Proof.
  unfold missing_from. induction items as [|c items IH]; simpl.
  - split; [intros _ c [] | reflexivity].
  - destruct (mem (fst c) cols) eqn:E; simpl.
    + rewrite IH. apply mem_iff in E. split.
      * intros H x [<- | Hx]; auto.
      * intros H x Hx. apply H. right. exact Hx.
    + split; [discriminate|]. intros H. exfalso.
      specialize (H c (or_introl eq_refl)). apply mem_iff in H. congruence.
Qed.

Lemma missing_from_in (cols : list string) (items : list column) (c : column) :
  In c (missing_from cols items) <-> In c items /\ ~ In (fst c) cols.
Proof.
  unfold missing_from. rewrite filter_In, negb_true_iff, <- mem_iff.
  destruct (mem (fst c) cols); intuition congruence.
Qed.

Lemma missing_from_covered (tbl items : list column) :
  missing_from (map fst (tbl ++ missing_from (map fst tbl) items)) items = [].
Proof.
  apply missing_from_nil_iff. intros c Hc. rewrite map_app.
  apply in_or_app.
  destruct (mem (fst c) (map fst tbl)) eqn:E.
  - left. apply mem_iff, E.
  - right. apply in_map. unfold missing_from. apply filter_In.
    rewrite E. split; [exact Hc | reflexivity].
Qed.

Lemma all_present_in (tbl : list column) (c : column) :
  In c new_cols ->
  In (fst c) (map fst (tbl ++ missing_from (map fst tbl) new_cols)).
Proof.
  intros Hc. rewrite map_app. apply in_or_app.
  destruct (mem (fst c) (map fst tbl)) eqn:E.
  - left. apply mem_iff, E.
  - right. apply in_map, missing_from_in. split; [exact Hc|].
    rewrite <- mem_iff. congruence.
Qed.

Lemma find_clash_none (cols : list string) (items : list column) :
  find (clash cols) items = None <->
  forall c, In c items -> In (fst c) cols \/ has_name (fst c) cols = false.
Proof.
  split.
  - intros H c Hc. pose proof (find_none _ _ H c Hc) as Hn.
    unfold clash in Hn. destruct (mem (fst c) cols) eqn:E.
    + left. apply mem_iff, E.
    + right. exact Hn.
  - intros H. induction items as [|c items IH]; [reflexivity|].
    cbn [find]. replace (clash cols c) with false.
    + apply IH. intros x Hx. apply H. right. exact Hx.
    + symmetry. unfold clash.
      destruct (H c (or_introl eq_refl)) as [Hin | Hn].
      * apply mem_iff in Hin. rewrite Hin. reflexivity.
      * rewrite Hn. apply andb_false_r.
Qed.

Lemma ensure_columns_runs (tbl : list column) :
  run ensure_columns (Some tbl)
  = match find (clash (map fst tbl)) new_cols with
    | Some c => inl (DuplicateColumn (fst c))
    | None =>
        inr (tt,
             {| table := Some (tbl ++ missing_from (map fst tbl) new_cols);
                altered := missing_from (map fst tbl) new_cols |})
    end.
Proof.
  unfold run, ensure_columns, bind, table_info_names. cbn [table].
  rewrite add_missing_runs; [reflexivity | apply new_cols_distinct | auto].
Qed.

(** C9.  The column check of [migrate_columns] does not keep what it is
    there for.  It looks for a column by its name as written, and SQLite
    by its name whatever the case of its letters: on a table that spells
    the column Latitude the check takes latitude for missing, and the
    ALTER TABLE it then runs is refused as a duplicate. *)
Theorem ensure_columns_fails_on_other_case :
  mem "latitude" (map fst legacy_capitalised) = false /\
  has_name "latitude" (map fst legacy_capitalised) = true /\
  run ensure_columns (Some legacy_capitalised)
  = inl (DuplicateColumn "latitude").
Proof. repeat split. Qed.

(** X24.  On a table that has every expected column under its name as
    written the column check runs no ALTER TABLE and leaves the table as
    it is.  On a table where every expected column is there as written or
    under no spelling at all, it runs one ALTER TABLE for each one that
    is not there, with the type [new_cols] gives it and in the order of
    [new_cols], does not fail, and runs none when it is run again. *)
Theorem ensure_columns_adds_missing :
  forall tbl : list column,
    ((forall c, In c new_cols -> In (fst c) (map fst tbl)) ->
     run ensure_columns (Some tbl)
     = inr (tt, {| table := Some tbl; altered := [] |})) /\
    ((forall c, In c new_cols ->
                In (fst c) (map fst tbl) \/
                has_name (fst c) (map fst tbl) = false) ->
     exists missing,
       run ensure_columns (Some tbl)
       = inr (tt, {| table := Some (tbl ++ missing); altered := missing |}) /\
       missing
       = filter (fun c => negb (mem (fst c) (map fst tbl))) new_cols /\
       (forall c, In c missing <->
                  In c new_cols /\ ~ In (fst c) (map fst tbl)) /\
       run ensure_columns (Some (tbl ++ missing))
       = inr (tt, {| table := Some (tbl ++ missing); altered := [] |})).
Proof.
  intros tbl. split.
  - intros Hall. rewrite ensure_columns_runs.
    rewrite (proj2 (find_clash_none _ _)) by (intros c Hc; left; auto).
    rewrite (proj2 (missing_from_nil_iff _ _) Hall), app_nil_r. reflexivity.
  - intros Hok. exists (missing_from (map fst tbl) new_cols).
    split; [|split; [reflexivity|split]].
    + rewrite ensure_columns_runs.
      rewrite (proj2 (find_clash_none _ _) Hok). reflexivity.
    + intros c. apply missing_from_in.
    + rewrite ensure_columns_runs.
      rewrite (proj2 (find_clash_none _ _))
        by (intros c Hc; left; apply all_present_in, Hc).
      rewrite missing_from_covered, app_nil_r. reflexivity.
Qed.

Lemma ensure_columns_adds_missing_witness :
  run ensure_columns (init_db None)
  = inr (tt, {| table := Some base_columns; altered := [] |}) /\
  exists missing,
    run ensure_columns (Some [("id", "INTEGER"); ("username", "TEXT");
                              ("address", "TEXT"); ("checkin_time", "TEXT");
                              ("checkout_time", "TEXT")])
    = inr (tt, {| table := Some ([("id", "INTEGER"); ("username", "TEXT");
                                  ("address", "TEXT");
                                  ("checkin_time", "TEXT");
                                  ("checkout_time", "TEXT")] ++ missing);
                  altered := missing |}) /\
    missing = new_cols.
Proof.
  split.
  - apply (proj1 (ensure_columns_adds_missing base_columns)).
    intros c Hc. simpl in Hc.
    repeat (destruct Hc as [<- | Hc]; [simpl; tauto|]). destruct Hc.
  - destruct (proj2 (ensure_columns_adds_missing
                       [("id", "INTEGER"); ("username", "TEXT");
                        ("address", "TEXT"); ("checkin_time", "TEXT");
                        ("checkout_time", "TEXT")]))
      as (missing & Hrun & Hm & _).
    + intros c Hc. right. simpl in Hc.
      repeat (destruct Hc as [<- | Hc]; [reflexivity|]). destruct Hc.
    + exists missing. split; [exact Hrun | exact Hm].
Defined.

(* ------------------------------------------------------------------ *)
(** * Names that differ in whitespace *)

Lemma rstrip_all_space (s : string) :
  Py.all_space (Py.rstrip s) -> Py.all_space s.
Proof.
  unfold Py.all_space. induction s as [|c s IH]; simpl; [auto|].
  destruct (Py.rstrip s) as [|c' r] eqn:R.
  - assert (Hs : Py.all_space s) by (apply rstrip_empty_iff, R).
    destruct (Py.is_space c) eqn:E; intros H.
    + constructor; assumption.
    + inversion H; congruence.
  - intros H. inversion H as [|? ? Hc Hr]; subst.
    constructor; [exact Hc | apply IH, Hr].
Qed.

Lemma strip_not_blank (w : string) :
  ~ Py.all_space w -> ~ Py.all_space (Py.strip w).
Proof.
  intros Hw H. apply Hw. unfold Py.strip in H.
  apply rstrip_all_space in H. apply lstrip_empty_iff.
  pose proof (lstrip_head w) as Hh.
  destruct (Py.lstrip w) as [|c r]; [reflexivity|].
  unfold Py.all_space in H. simpl in H. inversion H; congruence.
Qed.

Lemma update_keeps_other_id (set_ : row -> row) (i : Z) (rs : list row)
  (r : row) :
  In r rs -> id r <> i ->
  In r (Sqlite.update set_ (fun x => id x =? i) rs).
Proof.
  intros Hin Hne. unfold Sqlite.update. apply in_map_iff.
  exists r. split; [|exact Hin].
  destruct (Z.eqb_spec (id r) i); [contradiction | reflexivity].
Qed.

Lemma other_name_out_of_reach (u v : string) (d : db) :
  ~ Py.all_space u -> v <> u -> out_of_reach u v d.
Proof.
  intros Hu Hv now now' lookup lookup' remark remark' d1. subst d1.
  destruct (check_in_rows now lookup u remark d)
    as [Hsame | (_ & r & Hrows & Hid & Hn & Ho)].
  { exfalso. apply not_blank_iff in Hu. revert Hsame.
    unfold check_in. rewrite Hu.
    destruct (get_ip_location_returns lookup) as (lat & lon & addr & ->).
    cbn [snd]. unfold insert_attendance. intros Hsame.
    apply (f_equal (fun x => length (rows x))) in Hsame.
    cbn [rows] in Hsame. rewrite length_app in Hsame. simpl in Hsame. lia. }
  set (d1 := snd (check_in now lookup u remark d)) in *.
  assert (Hfilter : filter (open_for v) (rows d1)
                    = filter (open_for v) (rows d)).
  { rewrite Hrows, filter_app. simpl.
    rewrite (open_for_other_name u v r Hn Hv). apply app_nil_r. }
  assert (Hsel : select_open_id v d1 = select_open_id v d).
  { unfold select_open_id, Sqlite.select. rewrite Hfilter. reflexivity. }
  assert (Hin : In r (rows d1))
    by (rewrite Hrows; apply in_or_app; right; left; reflexivity).
  exists r. repeat split; try assumption.
  - destruct (check_out_rows now' lookup' v remark' d1)
      as [-> | (i & t & lat & lon & Hi & ->)]; [exact Hin|].
    unfold update_checkout. cbn [rows].
    apply update_keeps_other_id; [exact Hin|].
    rewrite Hsel in Hi.
    apply select_open_id_some in Hi as (r' & Hr' & _ & <- & _).
    apply next_id_fresh in Hr'. lia.
  - intros h Hh Hr. unfold history in Hh.
    destruct (blank v); [discriminate|]. injection Hh as <-.
    apply order_by_id_desc_in, filter_In in Hr as [_ Hr].
    unfold Sqlite.text_eq in Hr. rewrite Hn in Hr.
    apply String.eqb_eq in Hr. congruence.
  - intros date_from date_to Hall Hr. unfold search in Hr.
    apply order_by_id_desc_in, filter_In in Hr as [_ Hr].
    apply search_where_iff in Hr as [[?|Hr] _]; congruence.
Qed.

(** C10.  The name is stored as entered and compared for equality, so a
    name and a whitespace variant of it are two users: the record of a
    check-in under the one is out of reach under the other, either way
    round. *)
Theorem whitespace_variants_are_distinct_users :
  forall (w : string) (d : db),
    ~ Py.all_space w ->
    Py.strip w <> w ->
    out_of_reach w (Py.strip w) d /\ out_of_reach (Py.strip w) w d.
Proof.
  intros w d Hw Hne. split.
  - apply other_name_out_of_reach; assumption.
  - apply other_name_out_of_reach; [apply strip_not_blank, Hw | congruence].
Qed.

Lemma whitespace_variants_are_distinct_users_witness :
  ~ Py.all_space "alice " /\ Py.strip "alice " = "alice" /\
  select_open_id "alice"
    (snd (check_in nine_o_clock bengaluru "alice " "start" empty_db)) = None /\
  fst (check_out five_o_clock bengaluru "alice" "done"
         (snd (check_in nine_o_clock bengaluru "alice " "start" empty_db)))
  = NotFound.
Proof.
  assert (Hw : ~ Py.all_space "alice ")
    by (apply not_blank_iff; reflexivity).
  assert (Hne : Py.strip "alice " <> "alice ") by discriminate.
  split; [exact Hw|]. split; [reflexivity|].
  destruct (proj1 (whitespace_variants_are_distinct_users "alice " empty_db
                     Hw Hne)
              nine_o_clock five_o_clock bengaluru bengaluru "start" "done")
    as (r & _ & _ & _ & Hsel & _).
  change (Py.strip "alice ") with "alice" in Hsel.
  split.
  - rewrite Hsel. reflexivity.
  - unfold check_out. rewrite Hsel. reflexivity.
Defined.

(* ------------------------------------------------------------------ *)
(** * Startup: [init_db] followed by [migrate_columns] *)

Lemma backfill_twice (d : db) : backfill (backfill d) = backfill d.
Proof.
  unfold backfill, Sqlite.update. cbn [rows seq]. f_equal.
  rewrite map_map. apply map_ext. intros r.
  destruct (needs_backfill r) eqn:E.
  - rewrite backfill_settles by exact E. reflexivity.
  - rewrite E. reflexivity.
Qed.

Lemma startup_runs (s : schema) (d : db) :
  startup s d
  = match s with
    | None => inr (Some base_columns, backfill d)
    | Some old =>
        match find (clash (map fst old)) new_cols with
        | Some c => inl (DuplicateColumn (fst c))
        | None =>
            inr (Some (old ++ missing_from (map fst old) new_cols),
                 backfill d)
        end
    end.
Proof.
  unfold startup, migrate_columns. destruct s as [old|]; cbn [init_db].
  - rewrite ensure_columns_runs.
    destruct (find (clash (map fst old)) new_cols); reflexivity.
  - rewrite ensure_columns_runs. reflexivity.
Qed.

(** X1.  Startup on a database file without the table creates it with
    the thirteen columns of [init_db] and adds none.  On a table that is
    there it succeeds when every expected column is either there under
    its name as written or under no spelling at all: the columns of the
    table stay, in their places, and the expected columns it lacked follow
    them.  When an expected column is there under another spelling only,
    startup stops at the first such column with the error of a duplicate
    column, and the backfill does not run. *)
Theorem startup_succeeds_or_clashes :
  forall (s : schema) (d : db),
    match s with
    | None => startup s d = inr (Some base_columns, backfill d)
    | Some old =>
        ((forall c, In c new_cols ->
                    In (fst c) (map fst old) \/
                    has_name (fst c) (map fst old) = false) ->
         exists added,
           startup s d = inr (Some (old ++ added), backfill d) /\
           (forall c, In c added <->
                      In c new_cols /\ ~ In (fst c) (map fst old)) /\
           (forall c, In c new_cols ->
                      In (fst c) (map fst (old ++ added)))) /\
        (forall c, find (clash (map fst old)) new_cols = Some c ->
                   startup s d = inl (DuplicateColumn (fst c)) /\
                   In c new_cols /\ ~ In (fst c) (map fst old) /\
                   has_name (fst c) (map fst old) = true)
    end.
Proof.
  intros s d. rewrite startup_runs. destruct s as [old|]; [|reflexivity].
  split.
  - intros Hok. apply find_clash_none in Hok. rewrite Hok.
    eexists. split; [reflexivity|]. split.
    + intros c. apply missing_from_in.
    + intros c. apply all_present_in.
  - intros c Hc. rewrite Hc. split; [reflexivity|].
    apply find_some in Hc as [Hin Hclash]. unfold clash in Hclash.
    apply andb_true_iff in Hclash as [H1 H2].
    split; [exact Hin|]. split; [|exact H2].
    rewrite <- mem_iff. apply negb_true_iff in H1. congruence.
Qed.

Lemma startup_succeeds_or_clashes_witness :
  startup (Some legacy_capitalised) empty_db
  = inl (DuplicateColumn "latitude") /\
  exists added,
    startup (Some [("id", "INTEGER"); ("username", "TEXT")]) empty_db
    = inr (Some ([("id", "INTEGER"); ("username", "TEXT")] ++ added),
           backfill empty_db) /\
    forall c, In c new_cols ->
              In (fst c)
                 (map fst ([("id", "INTEGER"); ("username", "TEXT")] ++ added)).
Proof.
  split.
  - exact (proj1 (proj2 (startup_succeeds_or_clashes
                           (Some legacy_capitalised) empty_db)
                    ("latitude", "REAL") eq_refl)).
  - destruct (proj1 (startup_succeeds_or_clashes
                       (Some [("id", "INTEGER"); ("username", "TEXT")])
                       empty_db)) as (added & Hrun & _ & Hall).
    + intros c Hc. right. simpl in Hc.
      repeat (destruct Hc as [<- | Hc]; [reflexivity|]). destruct Hc.
    + exists added. split; [exact Hrun | exact Hall].
Defined.

(** X2.  A startup that went through changes nothing when it runs
    again: the second run finds every column, adds none, and leaves the
    rows as the first one left them. *)
Theorem startup_twice :
  forall (s s' : schema) (d d' : db),
    startup s d = inr (s', d') ->
    startup s' d' = inr (s', d').
Proof.
  intros s s' d d'. rewrite startup_runs. destruct s as [old|].
  - destruct (find (clash (map fst old)) new_cols) eqn:E; [discriminate|].
    pose proof (missing_from_covered old new_cols) as Hcov.
    assert (Hnone : find (clash (map fst (old ++ missing_from (map fst old)
                                                  new_cols))) new_cols = None).
    { apply find_clash_none. intros c Hc. left.
      apply all_present_in, Hc. }
    revert Hcov Hnone. generalize (missing_from (map fst old) new_cols).
    intros m Hcov Hnone H. injection H as <- <-.
    rewrite startup_runs, Hnone, Hcov, backfill_twice, app_nil_r.
    reflexivity.
  - intros [= <- <-]. rewrite startup_runs, backfill_twice. reflexivity.
Qed.

Lemma startup_twice_witness :
  startup None empty_db = inr (Some base_columns, empty_db) /\
  startup (Some base_columns) empty_db = inr (Some base_columns, empty_db).
Proof.
  split; [reflexivity|].
  exact (startup_twice None (Some base_columns) empty_db empty_db eq_refl).
Defined.

Lemma has_name_app (c : string) (l1 l2 : list string) :
  has_name c (l1 ++ l2) = has_name c l1 || has_name c l2.
Proof. apply existsb_app. Qed.

Lemma has_name_missing (cols : list string) (c : string) :
  has_name c (map fst new_cols) = false ->
  has_name c (map fst (missing_from cols new_cols)) = false.
Proof.
  unfold has_name, missing_from. intros H.
  induction new_cols as [|x l IH]; [reflexivity|].
  cbn [map existsb] in H. apply orb_false_iff in H as [H1 H2].
  cbn [filter]. destruct (negb (mem (fst x) cols)); [|exact (IH H2)].
  cbn [map existsb]. rewrite H1. exact (IH H2).
Qed.

(** X3.  A startup that goes through adds none of id, username,
    address, checkin_time and checkout_time: each is in the table
    afterwards, under whatever spelling, exactly when it was before.  So
    the columns the handlers name are all there after it when the table
    had these five. *)
Theorem startup_columns_for_handlers :
  forall (old tbl : list column) (d d' : db),
    startup (Some old) d = inr (Some tbl, d') ->
    (forall c, In c unmanaged_columns ->
               has_name c (map fst tbl) = has_name c (map fst old)) /\
    ((forall c, In c unmanaged_columns -> has_name c (map fst old) = true) ->
     forall c, In c ("id" :: insert_columns) ->
               has_name c (map fst tbl) = true).
Proof.
  intros old tbl d d'. rewrite startup_runs.
  destruct (find (clash (map fst old)) new_cols); [discriminate|].
  assert (Hkeep : forall c, In c unmanaged_columns ->
            has_name c (map fst (old ++ missing_from (map fst old) new_cols))
            = has_name c (map fst old)).
  { intros c Hc. rewrite map_app, has_name_app.
    rewrite has_name_missing; [apply orb_false_r|].
    simpl in Hc.
    repeat (destruct Hc as [<- | Hc]; [reflexivity|]). destruct Hc. }
  pose proof (all_present_in old) as Hpresent.
  revert Hkeep Hpresent. generalize (missing_from (map fst old) new_cols).
  intros m Hkeep Hpresent H. injection H as <- <-.
  split; [exact Hkeep|].
  intros Hall c Hc.
  assert (Hcases : In c unmanaged_columns \/ exists ty, In (c, ty) new_cols).
  { simpl in Hc.
    repeat (destruct Hc as [<- | Hc];
            [first [ left; simpl; tauto
                   | right; eexists; simpl; eauto 10 ]|]).
    destruct Hc. }
  destruct Hcases as [Hu | (ty & Hty)].
  - rewrite Hkeep by exact Hu. apply Hall, Hu.
  - apply mem_has_name, mem_iff.
    apply (Hpresent (c, ty) Hty).
Qed.

Lemma startup_columns_for_handlers_witness :
  exists tbl,
    startup (Some [("id", "INTEGER"); ("Username", "TEXT");
                   ("address", "TEXT"); ("checkin_time", "TEXT");
                   ("checkout_time", "TEXT")]) empty_db
    = inr (Some tbl, empty_db) /\
    forall c, In c ("id" :: insert_columns) -> has_name c (map fst tbl) = true.
Proof.
  eexists. split; [reflexivity|].
  apply (proj2 (startup_columns_for_handlers
                  [("id", "INTEGER"); ("Username", "TEXT");
                   ("address", "TEXT"); ("checkin_time", "TEXT");
                   ("checkout_time", "TEXT")] _ empty_db empty_db eq_refl)).
  intros c Hc. simpl in Hc.
  repeat (destruct Hc as [<- | Hc]; [reflexivity|]). destruct Hc.
Defined.

(* ------------------------------------------------------------------ *)
(** * What the resolver hands to the handlers *)

Lemma coords_paired (v : latlng_value) (a b : option float) :
  coords v = Returns (a, b) -> coordinates_paired a b.
Proof.
  unfold coords, coordinates_paired.
  destruct (latlng_truthy v).
  - destruct (float_item v 0); [discriminate|].
    destruct (float_item v 1); [discriminate|].
    cbn. intros [= <- <-]. split; discriminate.
  - intros [= <- <-]. tauto.
Qed.

Lemma or_else_truthy (a b : string) :
  Py.truthy b = true -> Py.truthy (Py.or_else a b) = true.
Proof.
  intros Hb. unfold Py.or_else. destruct (Py.truthy a) eqn:E; assumption.
Qed.

Lemma get_ip_location_shape (lookup : py geo) (a b : option float)
  (addr : string) :
  get_ip_location lookup = Returns (a, b, addr) ->
  coordinates_paired a b /\ Py.truthy addr = true.
Proof.
  unfold get_ip_location, try_except.
  destruct (locate lookup) as [|[[a' b'] addr']] eqn:E.
  - intros [= <- <- <-]. unfold coordinates_paired. split; [tauto|reflexivity].
  - intros [= <- <- <-]. revert E. unfold locate.
    destruct lookup as [|g]; [discriminate|]. cbn [py_bind].
    destruct (latlng g) as [|v]; [discriminate|]. cbn [py_bind].
    destruct (coords v) as [|[x y]] eqn:Hc; [discriminate|]. cbn [py_bind].
    destruct (city g); [discriminate|].
    destruct (state g); [discriminate|].
    destruct (country g); [discriminate|]. cbn [py_bind].
    destruct (join_filter_none _ _); [discriminate|]. cbn [py_bind fst snd].
    intros [= <- <- <-]. split.
    + apply (coords_paired v), Hc.
    + apply or_else_truthy. reflexivity.
Qed.

(** X4.  What [get_ip_location] returns always has both coordinates or
    neither, and an address that is not empty. *)
Theorem get_ip_location_result_shape :
  forall lookup : py geo,
    exists a b addr,
      get_ip_location lookup = Returns (a, b, addr) /\
      (a = None <-> b = None) /\ addr <> "".
Proof.
  intros lookup.
  destruct (get_ip_location_returns lookup) as (a & b & addr & H).
  exists a, b, addr. split; [exact H|].
  destruct (get_ip_location_shape lookup a b addr H) as [Hp Ht].
  split; [exact Hp|]. intros ->. discriminate Ht.
Qed.

(* ------------------------------------------------------------------ *)
(** * What the two buttons do to the table *)

Lemma check_in_cases (now : datetime) (lookup : py geo) (u remark : string)
  (d : db) :
  (blank u = true /\ check_in now lookup u remark d = (error_enter_name, d))
  \/
  exists a b addr,
    blank u = false /\ get_ip_location lookup = Returns (a, b, addr) /\
    check_in now lookup u remark d
    = (success_checked_in (strftime TIMESTAMP_FORMAT now) addr,
       insert_attendance u a b a b addr (strftime TIMESTAMP_FORMAT now)
         remark None None None None d).
Proof.
  unfold check_in. destruct (blank u); [left; split; reflexivity|].
  right. destruct (get_ip_location_returns lookup) as (a & b & addr & H).
  exists a, b, addr. rewrite H. repeat split.
Qed.

Lemma check_out_cases (now : datetime) (lookup : py geo) (u remark : string)
  (d : db) :
  (blank u = true /\ check_out now lookup u remark d = (error_enter_name, d))
  \/
  (blank u = false /\ select_open_id u d = None /\
   check_out now lookup u remark d = (warning_no_active_checkin, d))
  \/
  exists i a b addr,
    blank u = false /\ select_open_id u d = Some i /\
    get_ip_location lookup = Returns (a, b, addr) /\
    check_out now lookup u remark d
    = (success_checked_out (strftime TIMESTAMP_FORMAT now),
       update_checkout (strftime TIMESTAMP_FORMAT now) remark a b i d).
Proof.
  unfold check_out. destruct (blank u); [left; split; reflexivity|].
  right. destruct (select_open_id u d) as [i|].
  - right. destruct (get_ip_location_returns lookup) as (a & b & addr & H).
    exists i, a, b, addr. rewrite H. repeat split.
  - left. repeat split.
Qed.

(** A property of records that the INSERT establishes and the UPDATE
    keeps holds of every record of every state the buttons lead to. *)
Lemma reachable_rows_ind (P : row -> Prop) :
  (forall now lookup u remark i a b addr,
      blank u = false -> get_ip_location lookup = Returns (a, b, addr) ->
      P {| id := i;
           username := Some u;
           latitude := Sqlite.real a;
           longitude := Sqlite.real b;
           address := Some addr;
           checkin_time := Some (strftime TIMESTAMP_FORMAT now);
           checkin_remark := Some remark;
           checkin_latitude := Sqlite.real a;
           checkin_longitude := Sqlite.real b;
           checkout_time := None;
           checkout_remark := None;
           checkout_latitude := None;
           checkout_longitude := None |}) ->
  (forall now lookup remark a b addr r,
      get_ip_location lookup = Returns (a, b, addr) -> P r ->
      P (set_checkout (strftime TIMESTAMP_FORMAT now) remark a b r)) ->
  forall d, reachable d -> Forall P (rows d).
Proof.
  intros Hnew Hset d. induction 1 as [| now lookup u remark d Hd IH
                                      | now lookup u remark d Hd IH].
  - constructor.
  - destruct (check_in_cases now lookup u remark d)
      as [[_ ->] | (a & b & addr & Hu & Hg & ->)]; [exact IH|].
    cbn [snd]. unfold insert_attendance. cbn [rows].
    apply Forall_app. split; [exact IH|]. constructor; [|constructor].
    apply (Hnew now lookup); assumption.
  - destruct (check_out_cases now lookup u remark d)
      as [[_ ->] | [(_ & _ & ->) | (i & a & b & addr & _ & _ & Hg & ->)]];
      try exact IH.
    cbn [snd]. unfold update_checkout, Sqlite.update. cbn [rows].
    apply Forall_map. eapply Forall_impl; [|exact IH].
    intros r Hr. cbn beta. destruct (id r =? i); [|exact Hr].
    apply (Hset now lookup remark a b addr); assumption.
Qed.

Lemma real_storable (x : option float) : storable (Sqlite.real x).
Proof.
  destruct x as [f|]; [|exact I]. unfold Sqlite.real.
  destruct (PrimFloat.is_nan f) eqn:E1; [exact I|].
  destruct (PrimFloat.eqb f PrimFloat.zero) eqn:E2; cbn [storable].
  - split; [reflexivity|]. intros H.
    apply (f_equal (fun x => PrimFloat.ltb (PrimFloat.div PrimFloat.one x)
                               PrimFloat.zero)) in H.
    vm_compute in H. discriminate H.
  - split; [exact E1|]. intros ->. vm_compute in E2. discriminate E2.
Qed.

(** X5.  Every record of every state the two buttons lead to from the
    empty table is as the handlers write it: a name that is not blank;
    latitude and longitude equal to the check-in coordinates; no
    coordinate that is NaN or negative zero; an address that is not empty;
    a check-in time of the shape YYYY-MM-DD HH:MM:SS and a check-in
    remark; while the record is open all four check-out columns NULL, and
    once it is closed a check-out time of that shape and a check-out
    remark. *)
Theorem reachable_records_ok :
  forall d : db, reachable d -> Forall record_ok (rows d).
Proof.
  apply reachable_rows_ind.
  - intros now lookup u remark i a b addr Hu Hg.
    destruct (get_ip_location_shape lookup a b addr Hg) as [_ Ht].
    constructor; row_simpl.
    + exists u. split; [reflexivity | exact Hu].
    + split; reflexivity.
    + split; apply real_storable.
    + exists addr. split; [reflexivity | exact Ht].
    + eexists. split; [reflexivity | apply strftime_timestamp_shape].
    + discriminate.
    + intros _. repeat split.
    + intros t [=].
  - intros now lookup remark a b addr r Hg [H1 H2 H3 H4 H5 H6 H7 H8].
    constructor; unfold set_checkout; row_simpl; try assumption.
    + intros [=].
    + intros t [= <-]. split; [apply strftime_timestamp_shape|].
      split; [discriminate|]. split; apply real_storable.
Qed.

Lemma reachable_records_ok_witness :
  reachable alice_checked_in /\ Forall record_ok (rows alice_checked_in).
Proof.
  assert (H : reachable alice_checked_in)
    by (apply reach_check_in, reach_empty).
  split; [exact H | exact (reachable_records_ok _ H)].
Defined.

Lemma reachable_no_backfill (d : db) :
  reachable d -> Forall (fun r => needs_backfill r = false) (rows d).
Proof.
  apply reachable_rows_ind.
  - intros now lookup u remark i a b addr _ _.
    unfold needs_backfill, Sqlite.is_null. row_simpl.
    destruct (Sqlite.real a), (Sqlite.real b); reflexivity.
  - intros now lookup remark a b addr r _ H. exact H.
Qed.

(** X6.  On a table this program alone has written, the backfill of
    [migrate_columns] finds nothing to do. *)
Theorem backfill_noop_when_reachable :
  forall d : db, reachable d -> backfill d = d.
Proof.
  intros d Hd. apply reachable_no_backfill in Hd.
  destruct d as [rs q]. unfold backfill, Sqlite.update. cbn [rows seq] in *.
  f_equal. induction Hd as [|r rs Hr _ IH]; [reflexivity|].
  cbn [map]. rewrite Hr, IH. reflexivity.
Qed.

Lemma backfill_noop_when_reachable_witness :
  reachable alice_checked_in /\ backfill alice_checked_in = alice_checked_in.
Proof.
  assert (H : reachable alice_checked_in)
    by (apply reach_check_in, reach_empty).
  split; [exact H | exact (backfill_noop_when_reachable _ H)].
Defined.

(* ------------------------------------------------------------------ *)
(** * Ids *)

Lemma max_id_le (rs : list row) (m : Z) :
  0 <= m -> (forall r, In r rs -> id r <= m) -> Sqlite.max_id rs <= m.
Proof.
  intros Hm. induction rs as [|x rs IH]; intros H; simpl; [exact Hm|].
  specialize (H x (or_introl eq_refl)) as Hx.
  assert (Sqlite.max_id rs <= m) by (apply IH; intros; apply H; right; auto).
  lia.
Qed.

Lemma ids_upto_S (n : nat) :
  ids_upto (S n) = ids_upto n ++ [Z.of_nat (S n)].
Proof.
  unfold ids_upto. rewrite seq_S, map_app. reflexivity.
Qed.

Lemma ids_upto_bound (n : nat) (i : Z) : In i (ids_upto n) -> 1 <= i <= Z.of_nat n.
Proof.
  unfold ids_upto. intros H. apply in_map_iff in H as (k & <- & Hk).
  apply in_seq in Hk. lia.
Qed.

Lemma max_id_ids_upto (rs : list row) :
  map id rs = ids_upto (length rs) ->
  Sqlite.max_id rs = Z.of_nat (length rs).
Proof.
  intros H. apply Z.le_antisymm.
  - apply max_id_le; [lia|]. intros r Hr.
    apply (in_map id) in Hr. rewrite H in Hr.
    apply ids_upto_bound in Hr. lia.
  - destruct rs as [|x rs] using rev_ind; [simpl; lia|].
    rewrite length_app, Nat.add_comm in H |- *. cbn [length Nat.add] in *.
    rewrite ids_upto_S, map_app in H. cbn [map] in H.
    apply app_inj_tail in H as [_ Hx]. rewrite <- Hx.
    apply max_id_upper. apply in_or_app. right. left. reflexivity.
Qed.

(** The ids of the states the buttons lead to: 1, 2, ..., in the order
    of the rows, and the counter at the last of them. *)
Lemma reachable_ids (d : db) :
  reachable d ->
  map id (rows d) = ids_upto (length (rows d)) /\
  seq d = Z.of_nat (length (rows d)).
Proof.
  induction 1 as [| now lookup u remark d Hd [IH1 IH2]
                  | now lookup u remark d Hd [IH1 IH2]].
  - split; reflexivity.
  - destruct (check_in_cases now lookup u remark d)
      as [[_ ->] | (a & b & addr & _ & _ & ->)]; [split; assumption|].
    cbn [snd]. unfold insert_attendance. cbn [rows seq].
    assert (Hn : Sqlite.next_id d = Z.of_nat (S (length (rows d)))).
    { unfold Sqlite.next_id. rewrite IH2, (max_id_ids_upto _ IH1). lia. }
    rewrite length_app, Nat.add_comm. cbn [length Nat.add].
    split; [|exact Hn].
    rewrite map_app, ids_upto_S, IH1. cbn [map id]. rewrite Hn. reflexivity.
  - destruct (check_out_cases now lookup u remark d)
      as [[_ ->] | [(_ & _ & ->) | (i & a & b & addr & _ & _ & _ & ->)]];
      try (split; assumption).
    cbn [snd]. rewrite update_checkout_ids.
    unfold update_checkout, Sqlite.update. cbn [rows seq].
    rewrite length_map. split; assumption.
Qed.

(** X7.  From the empty table on, the n-th record written has id n: ids
    count up from 1 with the rows, none skipped and none given twice, and
    the next check-in gets the number of rows plus one. *)
Theorem reachable_ids_count_up :
  forall d : db,
    reachable d ->
    (forall n r, nth_error (rows d) n = Some r -> id r = Z.of_nat (S n)) /\
    Sqlite.next_id d = Z.of_nat (S (length (rows d))).
Proof.
  intros d Hd. destruct (reachable_ids d Hd) as [H1 H2]. split.
  - intros n r Hn.
    assert (Hlt : (n < length (rows d))%nat)
      by (apply nth_error_Some; congruence).
    apply (map_nth_error id) in Hn. rewrite H1 in Hn.
    unfold ids_upto in Hn. rewrite nth_error_map in Hn.
    rewrite (nth_error_nth' _ 0%nat) in Hn by (rewrite length_seq; exact Hlt).
    rewrite seq_nth in Hn by exact Hlt. cbn in Hn. injection Hn as <-.
    reflexivity.
  - unfold Sqlite.next_id. rewrite H2, (max_id_ids_upto _ H1). lia.
Qed.

Lemma reachable_ids_count_up_witness :
  reachable alice_checked_in /\
  Sqlite.next_id alice_checked_in = 2.
Proof.
  assert (H : reachable alice_checked_in)
    by (apply reach_check_in, reach_empty).
  split; [exact H | exact (proj2 (reachable_ids_count_up _ H))].
Defined.

(* ------------------------------------------------------------------ *)
(** * What a click leaves alone *)

Lemma click_cases (d d' : db) :
  click d d' ->
  d' = d \/
  (exists r, rows d' = rows d ++ [r] /\ id r = Sqlite.next_id d) \/
  exists u i t remark a b,
    select_open_id u d = Some i /\ d' = update_checkout t remark a b i d.
Proof.
  intros [now lookup u remark | now lookup u remark].
  - destruct (check_in_rows now lookup u remark d)
      as [-> | (_ & r & Hr & Hid & _)]; [left; reflexivity|].
    right. left. exists r. split; assumption.
  - destruct (check_out_rows now lookup u remark d)
      as [-> | (i & t & a & b & Hs & ->)]; [left; reflexivity|].
    right. right. exists u, i, t, remark, a, b. split; [exact Hs|reflexivity].
Qed.

(** X8.  A click keeps every record in its place, with its id, its
    name, its legacy coordinates, its address and its four check-in
    columns; it deletes none, and adds at most one, at the end. *)
Theorem click_keeps_check_in_data :
  forall d d' : db,
    click d d' ->
    (length (rows d) <= length (rows d') <= S (length (rows d)))%nat /\
    forall n r,
      nth_error (rows d) n = Some r ->
      exists r',
        nth_error (rows d') n = Some r' /\
        id r' = id r /\ username r' = username r /\
        latitude r' = latitude r /\ longitude r' = longitude r /\
        address r' = address r /\
        checkin_time r' = checkin_time r /\
        checkin_remark r' = checkin_remark r /\
        checkin_latitude r' = checkin_latitude r /\
        checkin_longitude r' = checkin_longitude r.
Proof.
  intros d d' Hc.
  destruct (click_cases d d' Hc)
    as [-> | [(x & Hx & _) | (u & i & t & remark & a & b & _ & ->)]].
  - split; [lia|]. intros n r Hn. exists r. repeat split. exact Hn.
  - rewrite Hx, length_app. cbn [length]. split; [lia|].
    intros n r Hn. exists r. repeat split.
    rewrite nth_error_app1 by (apply nth_error_Some; congruence). exact Hn.
  - unfold update_checkout, Sqlite.update. cbn [rows].
    rewrite length_map. split; [lia|].
    intros n r Hn. eexists. split.
    + rewrite nth_error_map, Hn. reflexivity.
    + destruct (id r =? i); repeat split.
Qed.

Lemma click_keeps_check_in_data_witness :
  click alice_checked_in
    (snd (check_out five_o_clock bengaluru "alice" "done" alice_checked_in)) /\
  exists r',
    nth_error
      (rows (snd (check_out five_o_clock bengaluru "alice" "done"
                    alice_checked_in))) 0 = Some r' /\
    checkin_time r' = Some "2024-01-01 09:00:00".
Proof.
  assert (H : click alice_checked_in
    (snd (check_out five_o_clock bengaluru "alice" "done" alice_checked_in)))
    by constructor.
  split; [exact H|].
  destruct (proj2 (click_keeps_check_in_data _ _ H) 0%nat _ eq_refl)
    as (r' & Hn & _ & _ & _ & _ & _ & Ht & _).
  exists r'. split; [exact Hn | exact Ht].
Defined.

(** X9.  A record that is closed stays as it is: with the primary key
    in force, no click changes any column of it. *)
Theorem closed_record_is_final :
  forall (d d' : db) (n : nat) (r : row),
    pk_unique d ->
    click d d' ->
    nth_error (rows d) n = Some r ->
    checkout_time r <> None ->
    nth_error (rows d') n = Some r.
Proof.
  intros d d' n r Hpk Hc Hn Hclosed.
  destruct (click_cases d d' Hc)
    as [-> | [(x & Hx & _) | (u & i & t & remark & a & b & Hs & ->)]].
  - exact Hn.
  - rewrite Hx, nth_error_app1 by (apply nth_error_Some; congruence).
    exact Hn.
  - unfold update_checkout, Sqlite.update. cbn [rows].
    rewrite nth_error_map, Hn. cbn [option_map].
    destruct (Z.eqb_spec (id r) i) as [E|_]; [|reflexivity].
    exfalso. apply select_open_id_some in Hs as (o & Ho & Hopen & Hid & _).
    apply open_for_iff in Hopen as [_ Hopen].
    assert (o = r); [|congruence].
    apply nth_error_In in Hn.
    unfold pk_unique in Hpk.
    destruct (in_split _ _ Ho) as (l1 & l2 & Hl). rewrite Hl in Hpk, Hn.
    rewrite map_app in Hpk. cbn [map] in Hpk.
    apply NoDup_remove_2 in Hpk.
    apply in_app_or in Hn as [Hn | [Hn | Hn]]; [| exact Hn |];
      exfalso; apply Hpk, in_or_app; [left | right];
      apply in_map_iff; exists r; (split; [congruence | exact Hn]).
Qed.

Lemma closed_record_is_final_witness :
  exists r,
    nth_error
      (rows (snd (check_out five_o_clock bengaluru "alice" "done"
                    alice_checked_in))) 0 = Some r /\
    checkout_time r = Some "2024-01-01 17:00:00" /\
    nth_error
      (rows (snd (check_out nine_o_clock bengaluru "alice" "again"
           (snd (check_out five_o_clock bengaluru "alice" "done"
                   alice_checked_in))))) 0 = Some r.
Proof.
  eexists. split; [reflexivity|]. split; [reflexivity|].
  apply (closed_record_is_final
           (snd (check_out five_o_clock bengaluru "alice" "done"
                   alice_checked_in))).
  - repeat constructor. simpl. tauto.
  - constructor.
  - reflexivity.
  - discriminate.
Defined.

(* ------------------------------------------------------------------ *)
(** * Check-in and check-out together *)

Lemma update_no_match (set_ : row -> row) (where_ : row -> bool)
  (rs : list row) :
  (forall x, In x rs -> where_ x = false) ->
  Sqlite.update set_ where_ rs = rs.
Proof.
  unfold Sqlite.update.
  induction rs as [|y l IH]; intros Hl; simpl; [reflexivity|].
  rewrite (Hl y) by (left; reflexivity).
  rewrite IH by (intros; apply Hl; right; assumption). reflexivity.
Qed.

(** After an INSERT under [u], the SELECT of the check-out under [u]
    finds the new record, whatever else is open. *)
Lemma select_open_id_new (u : string) (d : db) (r : row) (q : Z) :
  id r = Sqlite.next_id d -> open_for u r = true ->
  select_open_id u {| rows := rows d ++ [r]; seq := q |}
  = Some (Sqlite.next_id d).
Proof.
  intros Hid Hopen.
  destruct (select_open_id u {| rows := rows d ++ [r]; seq := q |})
    as [i|] eqn:Hs.
  - apply select_open_id_some in Hs as (o & Ho & _ & <- & Hmax).
    cbn [rows] in Ho, Hmax. f_equal.
    assert (Hge : id r <= id o)
      by (apply Hmax; [apply in_or_app; right; left; reflexivity | exact Hopen]).
    apply in_app_or in Ho as [Ho | [<- | []]]; [|exact Hid].
    apply next_id_fresh in Ho. lia.
  - exfalso.
    pose proof (proj1 (select_open_id_none _ _) Hs r) as Hf.
    cbn [rows] in Hf. rewrite Hf in Hopen; [discriminate|].
    apply in_or_app. right. left. reflexivity.
Qed.

(** X10.  A check-out right after a check-in under the same name closes
    the record that check-in wrote, older open records of the name or
    not, and leaves the rows that were there before as they were.  The
    coordinates are those of the two lookups as the table stores them. *)
Theorem check_out_closes_last_check_in :
  forall (now now' : datetime) (lookup lookup' : py geo)
         (u remark remark' : string) (d : db),
    ~ Py.all_space u ->
    exists a b addr a' b' addr',
      get_ip_location lookup = Returns (a, b, addr) /\
      get_ip_location lookup' = Returns (a', b', addr') /\
      check_out now' lookup' u remark'
        (snd (check_in now lookup u remark d))
      = (success_checked_out (strftime TIMESTAMP_FORMAT now'),
         {| rows := rows d ++
              [ {| id := Sqlite.next_id d;
                   username := Some u;
                   latitude := Sqlite.real a;
                   longitude := Sqlite.real b;
                   address := Some addr;
                   checkin_time := Some (strftime TIMESTAMP_FORMAT now);
                   checkin_remark := Some remark;
                   checkin_latitude := Sqlite.real a;
                   checkin_longitude := Sqlite.real b;
                   checkout_time := Some (strftime TIMESTAMP_FORMAT now');
                   checkout_remark := Some remark';
                   checkout_latitude := Sqlite.real a';
                   checkout_longitude := Sqlite.real b' |} ];
            seq := Sqlite.next_id d |}).
Proof.
  intros now now' lookup lookup' u remark remark' d Hu.
  apply not_blank_iff in Hu.
  destruct (get_ip_location_returns lookup) as (a & b & addr & Hg).
  destruct (get_ip_location_returns lookup') as (a' & b' & addr' & Hg').
  exists a, b, addr, a', b', addr'. split; [exact Hg|]. split; [exact Hg'|].
  unfold check_in. rewrite Hu, Hg. cbn [snd].
  unfold check_out, insert_attendance. rewrite Hu.
  rewrite select_open_id_new;
    [| reflexivity
     | apply open_for_iff; split; reflexivity ].
  rewrite Hg'. f_equal. unfold update_checkout, Sqlite.update.
  cbn [rows seq]. f_equal. rewrite map_app. f_equal.
  - apply (update_no_match _ (fun x => id x =? Sqlite.next_id d)).
    intros x Hx. apply next_id_fresh in Hx. apply Z.eqb_neq. lia.
  - cbn [map id]. rewrite Z.eqb_refl. reflexivity.
Qed.

Lemma check_out_closes_last_check_in_witness :
  ~ Py.all_space "alice" /\
  exists r,
    rows (snd (check_out five_o_clock bengaluru "alice" "done"
                 (snd (check_in nine_o_clock bengaluru "alice" "again"
                         alice_checked_in))))
    = rows alice_checked_in ++ [r] /\
    id r = 2 /\ checkout_time r = Some "2024-01-01 17:00:00".
Proof.
  assert (Hu : ~ Py.all_space "alice") by (apply not_blank_iff; reflexivity).
  split; [exact Hu|].
  destruct (check_out_closes_last_check_in nine_o_clock five_o_clock
              bengaluru bengaluru "alice" "again" "done" alice_checked_in Hu)
    as (a & b & addr & a' & b' & addr' & _ & _ & Hc).
  rewrite Hc. cbn [snd rows]. eexists. split; [reflexivity|].
  split; reflexivity.
Defined.

Lemma filter_length_app3 (p : row -> bool) (pre post : list row) (r : row) :
  length (filter p (pre ++ r :: post))
  = (length (filter p pre) + (if p r then 1 else 0)
     + length (filter p post))%nat.
Proof.
  rewrite filter_app, length_app. cbn [filter].
  destruct (p r); cbn [length]; lia.
Qed.

(** X11.  A check-in under a name that is not blank opens exactly one
    more record for that name and none for any other. *)
Theorem check_in_opens_one :
  forall (now : datetime) (lookup : py geo) (u remark : string) (d : db),
    ~ Py.all_space u ->
    open_count u (snd (check_in now lookup u remark d))
    = S (open_count u d) /\
    forall v, v <> u ->
      open_count v (snd (check_in now lookup u remark d)) = open_count v d.
Proof.
  intros now lookup u remark d Hu. apply not_blank_iff in Hu.
  destruct (check_in_cases now lookup u remark d)
    as [[Hb _] | (a & b & addr & _ & _ & ->)]; [congruence|].
  cbn [snd]. unfold insert_attendance, open_count. cbn [rows].
  split.
  - rewrite filter_app, length_app. cbn [filter].
    replace (open_for u _) with true; [cbn [length]; lia|].
    symmetry. apply open_for_iff. split; reflexivity.
  - intros v Hv. rewrite filter_app, length_app. cbn [filter].
    rewrite (open_for_other_name u v) by (reflexivity || exact Hv).
    cbn [length]. lia.
Qed.

Lemma check_in_opens_one_witness :
  ~ Py.all_space "alice" /\
  open_count "alice"
    (snd (check_in five_o_clock bengaluru "alice" "again" alice_checked_in))
  = 2%nat.
Proof.
  assert (Hu : ~ Py.all_space "alice") by (apply not_blank_iff; reflexivity).
  split; [exact Hu|].
  rewrite (proj1 (check_in_opens_one five_o_clock bengaluru "alice" "again"
                    alice_checked_in Hu)).
  reflexivity.
Defined.

Lemma filter_none (p : row -> bool) (rs : list row) :
  (forall x, In x rs -> p x = false) -> filter p rs = [].
Proof.
  induction rs as [|x l IH]; intros H; [reflexivity|].
  cbn [filter]. rewrite (H x (or_introl eq_refl)).
  apply IH. intros y Hy. apply H. right. exact Hy.
Qed.

(** X12.  With the primary key in force, a check-out under a name that
    is not blank closes exactly one open record of that name when there
    is one, none when there is none, and never one of another name. *)
Theorem check_out_closes_one :
  forall (now : datetime) (lookup : py geo) (u remark : string) (d : db),
    pk_unique d ->
    ~ Py.all_space u ->
    open_count u (snd (check_out now lookup u remark d))
    = Nat.pred (open_count u d) /\
    forall v, v <> u ->
      open_count v (snd (check_out now lookup u remark d)) = open_count v d.
Proof.
  intros now lookup u remark d Hpk Hu. apply not_blank_iff in Hu.
  destruct (check_out_cases now lookup u remark d)
    as [[Hb _] | [(_ & Hnone & ->) | (i & a & b & addr & _ & Hs & _ & ->)]].
  - congruence.
  - cbn [snd]. split; [|reflexivity].
    unfold open_count.
    rewrite (filter_none (open_for u) (rows d)); [reflexivity|].
    apply select_open_id_none, Hnone.
  - cbn [snd].
    apply select_open_id_some in Hs as (r & Hin & Hopen & <- & _).
    destruct (in_split _ _ Hin) as (pre & post & Hrows).
    unfold pk_unique in Hpk. unfold open_count, update_checkout. cbn [rows].
    rewrite Hrows in Hpk |- *.
    rewrite (update_by_id _ pre post r Hpk).
    split.
    + rewrite !filter_length_app3, open_for_set_checkout, Hopen. lia.
    + intros v Hv. rewrite !filter_length_app3, open_for_set_checkout.
      apply open_for_iff in Hopen as [Hn _].
      rewrite (open_for_other_name u v r Hn Hv). reflexivity.
Qed.

Lemma check_out_closes_one_witness :
  pk_unique alice_checked_in /\ ~ Py.all_space "alice" /\
  open_count "alice"
    (snd (check_out five_o_clock bengaluru "alice" "done" alice_checked_in))
  = 0%nat.
Proof.
  assert (Hpk : pk_unique alice_checked_in)
    by (repeat constructor; simpl; tauto).
  assert (Hu : ~ Py.all_space "alice") by (apply not_blank_iff; reflexivity).
  split; [exact Hpk|]. split; [exact Hu|].
  rewrite (proj1 (check_out_closes_one five_o_clock bengaluru "alice" "done"
                    alice_checked_in Hpk Hu)).
  reflexivity.
Defined.

(* ------------------------------------------------------------------ *)
(** * The attendance history *)

Lemma insert_desc_first (r : row) (rs : list row) :
  (forall x, In x rs -> id x < id r) ->
  Sqlite.insert_desc r rs = r :: rs.
Proof.
  destruct rs as [|x rs]; intros H; [reflexivity|].
  cbn [Sqlite.insert_desc].
  specialize (H x (or_introl eq_refl)).
  destruct (Z.leb_spec (id x) (id r)); [reflexivity | lia].
Qed.

(** ORDER BY id DESC puts a row of the highest id first. *)
Lemma order_by_id_desc_snoc (rs : list row) (r : row) :
  (forall x, In x rs -> id x < id r) ->
  Sqlite.order_by_id_desc (rs ++ [r]) = r :: Sqlite.order_by_id_desc rs.
Proof.
  induction rs as [|y rs IH]; intros H; [reflexivity|].
  cbn [app Sqlite.order_by_id_desc].
  rewrite IH by (intros x Hx; apply H; right; exact Hx).
  cbn [Sqlite.insert_desc].
  specialize (H y (or_introl eq_refl)).
  destruct (Z.leb_spec (id r) (id y)); [lia | reflexivity].
Qed.

Lemma insert_desc_last (r : row) (rs : list row) :
  (forall x, In x rs -> id r < id x) ->
  Sqlite.insert_desc r rs = rs ++ [r].
Proof.
  induction rs as [|y rs IH]; intros H; [reflexivity|].
  cbn [Sqlite.insert_desc app].
  pose proof (H y (or_introl eq_refl)).
  destruct (Z.leb_spec (id y) (id r)); [lia|].
  rewrite IH by (intros x Hx; apply H; right; exact Hx). reflexivity.
Qed.

(** On rows of ascending ids, ORDER BY id DESC is the reverse. *)
Lemma order_by_id_desc_rev (rs : list row) :
  StronglySorted id_asc rs -> Sqlite.order_by_id_desc rs = rev rs.
Proof.
  induction 1 as [|x rs Hs IH Hx]; [reflexivity|].
  cbn [Sqlite.order_by_id_desc rev]. rewrite IH.
  apply insert_desc_last. intros y Hy. apply in_rev in Hy.
  rewrite Forall_forall in Hx. apply Hx, Hy.
Qed.

Lemma sorted_filter (p : row -> bool) (rs : list row) :
  StronglySorted id_asc rs -> StronglySorted id_asc (filter p rs).
Proof.
  induction 1 as [|x rs Hs IH Hx]; [constructor|].
  cbn [filter]. destruct (p x); [|exact IH].
  constructor; [exact IH|].
  rewrite Forall_forall in *. intros y Hy. apply filter_In in Hy as [Hy _].
  apply Hx, Hy.
Qed.

Lemma ids_from_sorted (rs : list row) (k : nat) :
  map id rs = map Z.of_nat (List.seq k (length rs)) ->
  StronglySorted id_asc rs.
Proof.
  revert k. induction rs as [|x rs IH]; intros k H; [constructor|].
  cbn [length List.seq map] in H. injection H as Hx Hrs.
  constructor; [apply (IH (S k)), Hrs|].
  rewrite Forall_forall. intros y Hy. unfold id_asc.
  apply (in_map id) in Hy. rewrite Hrs in Hy.
  apply in_map_iff in Hy as (j & <- & Hj). apply in_seq in Hj. lia.
Qed.

Lemma reachable_sorted (d : db) : reachable d -> StronglySorted id_asc (rows d).
Proof.
  intros Hd. apply (ids_from_sorted _ 1), (reachable_ids d Hd).
Qed.

(** X13.  The history of a name that is not blank lists exactly the
    records under that very name, each as often as the table has it,
    highest id first; under a blank name nothing is queried. *)
Theorem history_exact_newest_first :
  forall (u : string) (d : db),
    (Py.all_space u -> history u d = None) /\
    (~ Py.all_space u ->
     exists h,
       history u d = Some h /\
       (forall r, In r h <-> In r (rows d) /\ username r = Some u) /\
       Permutation h
         (filter (fun r => Sqlite.text_eq (username r) u) (rows d)) /\
       StronglySorted (fun a b => id b <= id a) h).
Proof.
  intros u d. unfold history. split; intros Hu.
  - apply blank_iff in Hu. rewrite Hu. reflexivity.
  - apply not_blank_iff in Hu. rewrite Hu. eexists. split; [reflexivity|].
    unfold Sqlite.select. split; [|split].
    + intros r. rewrite order_by_id_desc_in, filter_In.
      unfold Sqlite.text_eq. destruct (username r) as [s|].
      * rewrite String.eqb_eq. split; intros [? ?]; split; congruence.
      * split; intros [? ?]; discriminate.
    + symmetry. apply order_by_id_desc_perm.
    + apply order_by_id_desc_sorted.
Qed.

(** X14.  After a check-in the history of that name shows the new
    record first and then what it showed before; the history of any
    other name is as it was. *)
Theorem history_after_check_in :
  forall (now : datetime) (lookup : py geo) (u remark : string) (d : db),
    ~ Py.all_space u ->
    exists r h,
      rows (snd (check_in now lookup u remark d)) = rows d ++ [r] /\
      history u d = Some h /\
      history u (snd (check_in now lookup u remark d)) = Some (r :: h) /\
      forall v, v <> u ->
        history v (snd (check_in now lookup u remark d)) = history v d.
Proof.
  intros now lookup u remark d Hu. apply not_blank_iff in Hu.
  destruct (check_in_rows now lookup u remark d)
    as [Hsame | (_ & r & Hrows & Hid & Hn & _)].
  { exfalso. destruct (check_in_cases now lookup u remark d)
      as [[Hb _] | (a & b & addr & _ & _ & E)]; [congruence|].
    rewrite E in Hsame. cbn [snd] in Hsame.
    apply (f_equal (fun x => length (rows x))) in Hsame.
    unfold insert_attendance in Hsame. cbn [rows] in Hsame.
    rewrite length_app in Hsame. cbn [length] in Hsame. lia. }
  exists r. eexists. split; [exact Hrows|].
  unfold history. rewrite Hu. split; [reflexivity|]. split.
  - f_equal. unfold Sqlite.select. rewrite Hrows, filter_app. cbn [filter].
    unfold Sqlite.text_eq at 2. rewrite Hn, String.eqb_refl.
    apply order_by_id_desc_snoc. intros x Hx.
    apply filter_In in Hx as [Hx _]. apply next_id_fresh in Hx. lia.
  - intros v Hv. destruct (blank v); [reflexivity|]. f_equal.
    unfold Sqlite.select. rewrite Hrows, filter_app. cbn [filter].
    unfold Sqlite.text_eq at 2. rewrite Hn.
    destruct (String.eqb_spec u v); [congruence|]. rewrite app_nil_r.
    reflexivity.
Qed.

Lemma history_after_check_in_witness :
  ~ Py.all_space "alice" /\
  exists r,
    history "alice" alice_checked_in = Some [r] /\
    history "bob" alice_checked_in = Some [].
Proof.
  assert (Hu : ~ Py.all_space "alice") by (apply not_blank_iff; reflexivity).
  split; [exact Hu|].
  destruct (history_after_check_in nine_o_clock bengaluru "alice" "start"
              empty_db Hu) as (r & h & _ & Hh & Hnew & Hother).
  injection Hh as <-. exists r. split; [exact Hnew|].
  unfold alice_checked_in. rewrite (Hother "bob") by discriminate.
  reflexivity.
Defined.

(** X15.  On a table this program alone has written, newest first is
    the reverse of the order in which the records were written. *)
Theorem history_is_reverse_order :
  forall (u : string) (d : db),
    reachable d ->
    ~ Py.all_space u ->
    history u d
    = Some (rev (filter (fun r => Sqlite.text_eq (username r) u) (rows d))).
Proof.
  intros u d Hd Hu. apply not_blank_iff in Hu.
  unfold history, Sqlite.select. rewrite Hu. f_equal.
  apply order_by_id_desc_rev, sorted_filter, reachable_sorted, Hd.
Qed.

Lemma history_is_reverse_order_witness :
  reachable alice_checked_in /\ ~ Py.all_space "alice" /\
  history "alice" alice_checked_in = Some (rev (rows alice_checked_in)).
Proof.
  assert (H : reachable alice_checked_in)
    by (apply reach_check_in, reach_empty).
  assert (Hu : ~ Py.all_space "alice") by (apply not_blank_iff; reflexivity).
  split; [exact H|]. split; [exact Hu|].
  exact (history_is_reverse_order "alice" alice_checked_in H Hu).
Defined.

(* ------------------------------------------------------------------ *)
(** * Dates compared as strings *)

Lemma string_compare_cons (c1 c2 : ascii) (s1 s2 : string) :
  String.compare (String c1 s1) (String c2 s2)
  = lex (Ascii.compare c1 c2) (String.compare s1 s2).
Proof. cbn [String.compare]. destruct (Ascii.compare c1 c2); reflexivity. Qed.

Lemma digit_compare (a b : Z) :
  Ascii.compare (digit a) (digit b) = (a mod 10 ?= b mod 10).
Proof.
  destruct (digit_cases a) as (k & Hk & <- & ->).
  destruct (digit_cases b) as (j & Hj & <- & ->).
  do 10 (destruct k as [|k]; [do 10 (destruct j as [|j]; [reflexivity|]); lia|]).
  lia.
Qed.

Lemma lex_pad2 (n m : Z) (rest : comparison) :
  0 <= n <= 99 -> 0 <= m <= 99 ->
  lex (n / 10 mod 10 ?= m / 10 mod 10) (lex (n mod 10 ?= m mod 10) rest)
  = lex (n ?= m) rest.
Proof.
  intros Hn Hm.
  destruct (Z.compare_spec (n / 10 mod 10) (m / 10 mod 10)) as [E|E|E];
    destruct (Z.compare_spec (n mod 10) (m mod 10)) as [F|F|F];
    destruct (Z.compare_spec n m) as [G|G|G];
    cbn [lex]; try reflexivity; exfalso;
    revert E F G; Z.div_mod_to_equations; lia.
Qed.

Lemma lex_pad4 (n m : Z) (rest : comparison) :
  0 <= n <= 9999 -> 0 <= m <= 9999 ->
  lex (n / 1000 mod 10 ?= m / 1000 mod 10)
    (lex (n / 100 mod 10 ?= m / 100 mod 10)
       (lex (n / 10 mod 10 ?= m / 10 mod 10)
          (lex (n mod 10 ?= m mod 10) rest)))
  = lex (n ?= m) rest.
Proof.
  intros Hn Hm.
  assert (Hhi : lex (n / 1000 mod 10 ?= m / 1000 mod 10)
                  (lex (n / 100 mod 10 ?= m / 100 mod 10)
                     (lex (n mod 100 ?= m mod 100) rest))
                = lex (n ?= m) rest).
  { destruct (Z.compare_spec (n / 1000 mod 10) (m / 1000 mod 10)) as [E|E|E];
      destruct (Z.compare_spec (n / 100 mod 10) (m / 100 mod 10)) as [F|F|F];
      destruct (Z.compare_spec (n mod 100) (m mod 100)) as [G|G|G];
      destruct (Z.compare_spec n m) as [K|K|K];
      cbn [lex]; try reflexivity; exfalso;
      revert E F G K; Z.div_mod_to_equations; lia. }
  rewrite <- Hhi. do 2 f_equal.
  rewrite <- (lex_pad2 (n mod 100) (m mod 100))
    by (Z.div_mod_to_equations; lia).
  replace (n mod 100 / 10 mod 10) with (n / 10 mod 10)
    by (Z.div_mod_to_equations; lia).
  replace (m mod 100 / 10 mod 10) with (m / 10 mod 10)
    by (Z.div_mod_to_equations; lia).
  replace (n mod 100 mod 10) with (n mod 10)
    by (Z.div_mod_to_equations; lia).
  replace (m mod 100 mod 10) with (m mod 10)
    by (Z.div_mod_to_equations; lia).
  reflexivity.
Qed.

Lemma date_strftime_compare (a b : date) :
  valid_date a -> valid_date b ->
  String.compare (date_strftime DATE_FORMAT a) (date_strftime DATE_FORMAT b)
  = lex (year a ?= year b) (lex (month a ?= month b) (day a ?= day b)).
Proof.
  intros (Hy & Hm & Hd) (Hy' & Hm' & Hd').
  change (date_strftime DATE_FORMAT a)
    with (pad4 (year a) ++ "-" ++ pad2 (month a) ++ "-" ++ pad2 (day a))%string.
  change (date_strftime DATE_FORMAT b)
    with (pad4 (year b) ++ "-" ++ pad2 (month b) ++ "-" ++ pad2 (day b))%string.
  unfold pad4, pad2. cbn [append].
  rewrite !string_compare_cons, !digit_compare.
  change (Ascii.compare "-" "-") with Eq. cbn [String.compare].
  rewrite (lex_pad4 (year a) (year b)) by lia. f_equal.
  cbn [lex]. rewrite (lex_pad2 (month a) (month b)) by lia. f_equal.
  cbn [lex]. rewrite (lex_pad2 (day a) (day b)) by lia.
  destruct (day a ?= day b); reflexivity.
Qed.

Lemma date_strftime_leb (a b : date) :
  valid_date a -> valid_date b ->
  String.leb (date_strftime DATE_FORMAT a) (date_strftime DATE_FORMAT b)
  = date_leb a b.
Proof.
  intros Ha Hb. unfold String.leb.
  rewrite (date_strftime_compare a b Ha Hb). unfold date_leb.
  destruct (Z.compare_spec (year a) (year b)) as [E|E|E];
    destruct (Z.compare_spec (month a) (month b)) as [F|F|F];
    destruct (Z.compare_spec (day a) (day b)) as [G|G|G];
    cbn [lex];
    repeat match goal with
           | |- context [?x <? ?y] => destruct (Z.ltb_spec x y); try lia
           | |- context [?x =? ?y] => destruct (Z.eqb_spec x y); try lia
           | |- context [?x <=? ?y] => destruct (Z.leb_spec x y); try lia
           end; reflexivity.
Qed.

(** X16.  For dates in [datetime]'s range the order of the formatted
    strings is the order of the dates, and a formatted date names one
    date only: the date filter of the search, which compares strings,
    compares days. *)
Theorem date_strings_order_as_dates :
  forall a b : date,
    valid_date a -> valid_date b ->
    String.leb (date_strftime DATE_FORMAT a) (date_strftime DATE_FORMAT b)
    = date_leb a b /\
    (date_strftime DATE_FORMAT a = date_strftime DATE_FORMAT b -> a = b).
Proof.
  intros a b Ha Hb. split; [apply date_strftime_leb; assumption|].
  intros E.
  pose proof (date_strftime_compare a b Ha Hb) as Hc.
  rewrite E in Hc.
  assert (Hrefl : forall s, String.compare s s = Eq).
  { induction s as [|c s IH]; [reflexivity|].
    rewrite string_compare_cons, IH.
    unfold Ascii.compare. rewrite N.compare_refl. reflexivity. }
  rewrite Hrefl in Hc.
  destruct a as [y m d], b as [y' m' d']. cbn [year month day] in Hc.
  destruct (Z.compare_spec y y'); cbn [lex] in Hc; try discriminate.
  destruct (Z.compare_spec m m'); cbn [lex] in Hc; try discriminate.
  destruct (Z.compare_spec d d'); try discriminate.
  congruence.
Qed.

Lemma date_strings_order_as_dates_witness :
  valid_date (mkDate 2024 1 31) /\ valid_date (mkDate 2024 2 1) /\
  String.leb (date_strftime DATE_FORMAT (mkDate 2024 1 31))
             (date_strftime DATE_FORMAT (mkDate 2024 2 1)) = true.
Proof.
  assert (Ha : valid_date (mkDate 2024 1 31))
    by (unfold valid_date; simpl; lia).
  assert (Hb : valid_date (mkDate 2024 2 1))
    by (unfold valid_date; simpl; lia).
  split; [exact Ha|]. split; [exact Hb|].
  rewrite (proj1 (date_strings_order_as_dates _ _ Ha Hb)). reflexivity.
Defined.

Lemma ascii_compare_eq (a b : ascii) : Ascii.compare a b = Eq -> a = b.
Proof. apply Ascii.compare_eq_iff. Qed.

Lemma string_leb_trans (s1 s2 s3 : string) :
  String.leb s1 s2 = true -> String.leb s2 s3 = true ->
  String.leb s1 s3 = true.
Proof.
  unfold String.leb. revert s2 s3.
  induction s1 as [|c1 s1 IH]; intros [|c2 s2] [|c3 s3];
    cbn [String.compare]; try reflexivity; try discriminate.
  unfold Ascii.compare in *.
  destruct (N.compare_spec (N_of_ascii c1) (N_of_ascii c2)) as [E|E|E];
    try discriminate;
    destruct (N.compare_spec (N_of_ascii c2) (N_of_ascii c3)) as [F|F|F];
    try discriminate;
    destruct (N.compare_spec (N_of_ascii c1) (N_of_ascii c3)) as [G|G|G];
    try reflexivity; try lia.
  apply IH.
Qed.

(** X17.  A check-in shows in the admin search at once and on top, when
    the filter is All or the name checked in under and the day of the
    clock lies between the two dates, ends included; else the search
    returns what it returned before. *)
Theorem search_after_check_in :
  forall (now : datetime) (lookup : py geo) (u remark : string) (d : db)
         (selected_user : string) (date_from date_to : date),
    ~ Py.all_space u ->
    valid_datetime now -> valid_date date_from -> valid_date date_to ->
    selected_user = "All" \/ selected_user = u ->
    exists r,
      rows (snd (check_in now lookup u remark d)) = rows d ++ [r] /\
      search selected_user date_from date_to
        (snd (check_in now lookup u remark d))
      = if date_leb date_from (dt_date now) && date_leb (dt_date now) date_to
        then r :: search selected_user date_from date_to d
        else search selected_user date_from date_to d.
Proof.
  intros now lookup u remark d sel from to Hu Hnow Hfrom Hto Hsel.
  apply not_blank_iff in Hu.
  destruct (check_in_cases now lookup u remark d)
    as [[Hb _] | (a & b & addr & _ & _ & ->)]; [congruence|].
  cbn [snd]. unfold insert_attendance. cbn [rows].
  eexists. split; [reflexivity|].
  unfold search, Sqlite.select. cbn [rows]. rewrite filter_app.
  cbn [filter].
  match goal with
  | |- context [search_where ?s ?lo ?hi ?r] =>
      assert (Hw : search_where s lo hi r
                   = date_leb from (dt_date now)
                     && date_leb (dt_date now) to)
  end.
  { unfold search_where, Sqlite.between, Sqlite.substr1, Sqlite.text_eq.
    row_simpl. cbn [option_map].
    rewrite timestamp_date_prefix.
    destruct Hnow as [Hdate _].
    rewrite !date_strftime_leb by assumption.
    destruct Hsel as [-> | ->].
    - reflexivity.
    - rewrite String.eqb_refl. destruct (String.eqb u "All"); reflexivity. }
  rewrite Hw.
  destruct (date_leb from (dt_date now) && date_leb (dt_date now) to).
  - apply order_by_id_desc_snoc. intros x Hx.
    apply filter_In in Hx as [Hx _]. apply next_id_fresh in Hx.
    row_simpl. lia.
  - rewrite app_nil_r. reflexivity.
Qed.

Lemma search_after_check_in_witness :
  ~ Py.all_space "alice" /\ valid_datetime nine_o_clock /\
  valid_date (mkDate 2024 1 1) /\ valid_date (mkDate 2024 1 31) /\
  exists r,
    search "All" (mkDate 2024 1 1) (mkDate 2024 1 31) alice_checked_in = [r].
Proof.
  assert (Hu : ~ Py.all_space "alice") by (apply not_blank_iff; reflexivity).
  assert (Hn : valid_datetime nine_o_clock)
    by (unfold valid_datetime, valid_date; simpl; lia).
  assert (Ha : valid_date (mkDate 2024 1 1))
    by (unfold valid_date; simpl; lia).
  assert (Hb : valid_date (mkDate 2024 1 31))
    by (unfold valid_date; simpl; lia).
  split; [exact Hu|]. split; [exact Hn|]. split; [exact Ha|].
  split; [exact Hb|].
  destruct (search_after_check_in nine_o_clock bengaluru "alice" "start"
              empty_db "All" (mkDate 2024 1 1) (mkDate 2024 1 31)
              Hu Hn Ha Hb (or_introl eq_refl)) as (r & _ & Hs).
  exists r. exact Hs.
Defined.

(** X18.  When the first date lies after the second, the search returns
    no record, whatever the table holds. *)
Theorem search_inverted_range_empty :
  forall (selected_user : string) (date_from date_to : date) (d : db),
    valid_date date_from -> valid_date date_to ->
    date_leb date_from date_to = false ->
    search selected_user date_from date_to d = [].
Proof.
  intros sel from to d Hfrom Hto Hinv.
  unfold search, Sqlite.select. rewrite filter_none; [reflexivity|].
  intros r _. destruct (search_where _ _ _ r) eqn:E; [|reflexivity].
  exfalso. apply search_where_iff in E as (_ & t & _ & H1 & H2).
  pose proof (string_leb_trans _ _ _ H1 H2) as H.
  rewrite date_strftime_leb in H by assumption. congruence.
Qed.

Lemma search_inverted_range_empty_witness :
  valid_date (mkDate 2024 1 31) /\ valid_date (mkDate 2024 1 1) /\
  search "All" (mkDate 2024 1 31) (mkDate 2024 1 1) alice_checked_in = [].
Proof.
  assert (Ha : valid_date (mkDate 2024 1 31))
    by (unfold valid_date; simpl; lia).
  assert (Hb : valid_date (mkDate 2024 1 1))
    by (unfold valid_date; simpl; lia).
  split; [exact Ha|]. split; [exact Hb|].
  exact (search_inverted_range_empty "All" _ _ alice_checked_in Ha Hb eq_refl).
Defined.

(* ------------------------------------------------------------------ *)
(** * The map frames *)

Lemma to_numeric_is_nan (x : option float) :
  negb (PrimFloat.is_nan (to_numeric x)) = has_number x.
Proof. destruct x; reflexivity. Qed.

Lemma to_numeric_some (x : option float) :
  has_number x = true -> x = Some (to_numeric x).
Proof. destruct x; [reflexivity | discriminate]. Qed.

(** X19.  [prepare_map_df] keeps exactly the rows that hold a number in
    both coordinate columns, in their order, each with its two numbers
    under lat and lon; a row with a NULL in either column is dropped.  A
    map section does not run for an empty frame; for a frame with rows it
    shows the map of the rows kept when there is one, and the note when
    there is none. *)
Theorem prepare_map_df_exact :
  forall (df : list row) (lat_col lon_col : row -> option float),
    map record (prepare_map_df df lat_col lon_col)
    = filter (fun r => has_number (lat_col r) && has_number (lon_col r)) df /\
    (forall p, In p (prepare_map_df df lat_col lon_col) ->
               lat_col (record p) = Some (lat p) /\
               lon_col (record p) = Some (lon p)) /\
    (show_map df lat_col lon_col = None <-> df = []) /\
    (show_map df lat_col lon_col = Some st_info_no_valid_location <->
     df <> [] /\
     forall r, In r df -> has_number (lat_col r) = false \/
                          has_number (lon_col r) = false) /\
    (forall points,
        show_map df lat_col lon_col = Some (st_map points) <->
        points <> [] /\ points = prepare_map_df df lat_col lon_col).
Proof.
  intros df lat_col lon_col.
  assert (Hmap : map record (prepare_map_df df lat_col lon_col)
    = filter (fun r => has_number (lat_col r) && has_number (lon_col r)) df).
  { unfold prepare_map_df, dropna.
    induction df as [|r df IH]; [reflexivity|].
    cbn [map filter lat lon]. rewrite !to_numeric_is_nan.
    destruct (has_number (lat_col r) && has_number (lon_col r));
      cbn [map record]; rewrite IH; reflexivity. }
  assert (Hnil : prepare_map_df df lat_col lon_col = [] <->
                 forall r, In r df -> has_number (lat_col r) = false \/
                                      has_number (lon_col r) = false).
  { split.
    - intros E r Hr. rewrite E in Hmap. cbn [map] in Hmap.
      destruct (has_number (lat_col r)) eqn:H1; [|auto].
      destruct (has_number (lon_col r)) eqn:H2; [|auto].
      exfalso.
      assert (Hin : In r (filter (fun r => has_number (lat_col r)
                                           && has_number (lon_col r)) df))
        by (apply filter_In; rewrite H1, H2; auto).
      rewrite <- Hmap in Hin. destruct Hin.
    - intros Hall.
      destruct (prepare_map_df df lat_col lon_col) as [|p l] eqn:E;
        [reflexivity|].
      exfalso. cbn [map] in Hmap.
      assert (Hin : In (record p)
                      (filter (fun r => has_number (lat_col r)
                                        && has_number (lon_col r)) df))
        by (rewrite <- Hmap; left; reflexivity).
      apply filter_In in Hin as [Hin Hn].
      apply andb_true_iff in Hn as [H1 H2].
      destruct (Hall _ Hin) as [H|H]; congruence. }
  split; [exact Hmap|]. split; [|split; [|split]].
  - unfold prepare_map_df, dropna. intros p Hp.
    apply filter_In in Hp as [Hp Hn].
    apply in_map_iff in Hp as (r & <- & _).
    cbn [lat lon record] in *. rewrite !to_numeric_is_nan in Hn.
    apply andb_true_iff in Hn as [H1 H2].
    split; apply to_numeric_some; assumption.
  - unfold show_map. destruct df; split; intros H;
      first [reflexivity | discriminate].
  - unfold show_map. destruct df as [|r0 df].
    + split; [discriminate | intros [H _]; contradiction].
    + rewrite <- Hnil.
      destruct (prepare_map_df (r0 :: df) lat_col lon_col); split.
      * intros _. split; [discriminate | reflexivity].
      * reflexivity.
      * discriminate.
      * intros [_ H]. discriminate H.
  - intros points. unfold show_map. destruct df as [|r0 df].
    + split; [discriminate|]. intros [Hne ->]. contradiction.
    + destruct (prepare_map_df (r0 :: df) lat_col lon_col) as [|p l]; split.
      * discriminate.
      * intros [Hne ->]. contradiction.
      * intros [= <-]. split; [discriminate | reflexivity].
      * intros [_ ->]. reflexivity.
Qed.

(* ------------------------------------------------------------------ *)
(** * The admin view *)

Lemma admin_script_released (s : session_state) (w : admin_widgets) (d : db) :
  exists screen, admin_script s (released w) d = (s, Done screen).
Proof.
  unfold admin_script, released. cbn.
  destruct (admin_logged_in s); eexists; reflexivity.
Qed.

Lemma credentials_iff (w : admin_widgets) :
  String.eqb (admin_user w) ADMIN_USERNAME
  && String.eqb (admin_pass w) ADMIN_PASSWORD = true <->
  admin_user w = "admin" /\ admin_pass w = "12345".
Proof.
  rewrite andb_true_iff, !String.eqb_eq. reflexivity.
Qed.

(** An interaction, by its cases. *)
Lemma admin_interaction_cases (s : session_state) (w : admin_widgets)
  (d : db) :
  let records := search (w_selected_user w) (w_date_from w) (w_date_to w) d in
  let granted := String.eqb (admin_user w) ADMIN_USERNAME
                 && String.eqb (admin_pass w) ADMIN_PASSWORD in
  admin_interaction 2 s w d
  = Some (if admin_logged_in s
          then if logout_clicked w then (Some false, login_form)
               else (s, dashboard records)
          else if login_clicked w
               then if granted then (Some true, dashboard records)
                    else (s, login_rejected)
               else (s, login_form)).
Proof.
  intros records granted. subst records granted.
  cbn [admin_interaction]. unfold admin_script at 1.
  destruct (admin_logged_in s) eqn:Hs; cbn [negb].
  - destruct (logout_clicked w); [|reflexivity].
    unfold admin_script. cbn. reflexivity.
  - destruct (login_clicked w); [|reflexivity].
    destruct (String.eqb (admin_user w) ADMIN_USERNAME
              && String.eqb (admin_pass w) ADMIN_PASSWORD); [|reflexivity].
    unfold admin_script. cbn. reflexivity.
Qed.

(** X20.  An interaction in admin mode ends after two runs of the script
    at most.  From a session that is not logged in (the flag False, or
    not set at all) it shows records only when the login button was
    clicked with the username admin and the password 12345 to the letter,
    and then sets the flag; any other click on the button is rejected and
    leaves the session as it was. *)
Theorem admin_records_need_login :
  forall (s : session_state) (w : admin_widgets) (d : db),
    admin_logged_in s = false ->
    exists s' screen,
      admin_interaction 2 s w d = Some (s', screen) /\
      ((login_clicked w = true /\
        admin_user w = "admin" /\ admin_pass w = "12345") ->
       s' = Some true /\
       screen = dashboard (search (w_selected_user w) (w_date_from w)
                             (w_date_to w) d)) /\
      (~ (login_clicked w = true /\
          admin_user w = "admin" /\ admin_pass w = "12345") ->
       s' = s /\
       screen = if login_clicked w then login_rejected else login_form).
Proof.
  intros s w d Hs. rewrite admin_interaction_cases, Hs.
  pose proof (credentials_iff w) as Hc.
  destruct (login_clicked w);
    destruct (String.eqb (admin_user w) ADMIN_USERNAME
              && String.eqb (admin_pass w) ADMIN_PASSWORD);
    do 2 eexists; (split; [reflexivity|]); split;
    intros H; try (split; reflexivity); exfalso;
    first [ apply H; split; [reflexivity | apply Hc; reflexivity]
          | destruct H as (? & H); apply Hc in H; discriminate
          | destruct H as (H & _); discriminate ].
Qed.

Lemma admin_records_need_login_witness :
  admin_logged_in None = false /\
  exists screen,
    admin_interaction 2 None
      (mkAdminWidgets "admin" "12345 " true false "All"
         (mkDate 2024 1 1) (mkDate 2024 1 31)) alice_checked_in
    = Some (None, screen) /\ screen = login_rejected.
Proof.
  split; [reflexivity|].
  destruct (admin_records_need_login None
              (mkAdminWidgets "admin" "12345 " true false "All"
                 (mkDate 2024 1 1) (mkDate 2024 1 31)) alice_checked_in
              eq_refl) as (s' & screen & Hrun & _ & Hno).
  destruct Hno as [-> ->].
  - intros (_ & _ & H). discriminate H.
  - exists login_rejected. split; [exact Hrun | reflexivity].
Defined.

Lemma admin_interaction_login (s s' : session_state) (w : admin_widgets)
  (d : db) (screen : admin_screen) :
  admin_logged_in s = false ->
  admin_interaction 2 s w d = Some (s', screen) ->
  admin_logged_in s' = true ->
  login_clicked w = true /\
  admin_user w = ADMIN_USERNAME /\ admin_pass w = ADMIN_PASSWORD.
Proof.
  intros Hs. rewrite admin_interaction_cases, Hs.
  pose proof (credentials_iff w) as Hc.
  destruct (login_clicked w);
    destruct (String.eqb (admin_user w) ADMIN_USERNAME
              && String.eqb (admin_pass w) ADMIN_PASSWORD);
    intros [= <- <-] H; try congruence.
  split; [reflexivity|]. apply Hc. reflexivity.
Qed.

(** X21.  However many interactions a session goes through, it is
    logged in at the end only if it was at the start or one of them was a
    click on the login button with the right username and password. *)
Theorem admin_session_needs_credentials :
  forall (steps : list (admin_widgets * db)) (s : session_state),
    admin_logged_in s = false ->
    admin_logged_in (admin_session s steps) = true ->
    exists w d,
      In (w, d) steps /\ login_clicked w = true /\
      admin_user w = ADMIN_USERNAME /\ admin_pass w = ADMIN_PASSWORD.
Proof.
  induction steps as [|[w d] steps IH]; intros s Hs Hend.
  - cbn in Hend. congruence.
  - cbn [admin_session] in Hend.
    destruct (admin_interaction 2 s w d) as [[s' screen]|] eqn:E;
      [|congruence].
    destruct (admin_logged_in s') eqn:Hs'.
    + exists w, d. split; [left; reflexivity|].
      apply (admin_interaction_login s s' w d screen); assumption.
    + destruct (IH s' Hs' Hend) as (w' & d' & Hin & H).
      exists w', d'. split; [right; exact Hin | exact H].
Qed.

Lemma admin_session_needs_credentials_witness :
  admin_logged_in None = false /\
  admin_logged_in
    (admin_session None
       [ (mkAdminWidgets "admin" "1234" true false "All"
            (mkDate 2024 1 1) (mkDate 2024 1 31), empty_db);
         (mkAdminWidgets "admin" "12345" true false "All"
            (mkDate 2024 1 1) (mkDate 2024 1 31), empty_db) ]) = true /\
  exists w d,
    In (w, d)
       [ (mkAdminWidgets "admin" "1234" true false "All"
            (mkDate 2024 1 1) (mkDate 2024 1 31), empty_db);
         (mkAdminWidgets "admin" "12345" true false "All"
            (mkDate 2024 1 1) (mkDate 2024 1 31), empty_db) ] /\
    login_clicked w = true /\
    admin_user w = ADMIN_USERNAME /\ admin_pass w = ADMIN_PASSWORD.
Proof.
  split; [reflexivity|]. split; [reflexivity|].
  exact (admin_session_needs_credentials
           [ (mkAdminWidgets "admin" "1234" true false "All"
                (mkDate 2024 1 1) (mkDate 2024 1 31), empty_db);
             (mkAdminWidgets "admin" "12345" true false "All"
                (mkDate 2024 1 1) (mkDate 2024 1 31), empty_db) ]
           None eq_refl eq_refl).
Defined.

(** X22.  A click on Logout in a logged-in session clears the flag and
    shows the login form, no record with it; and while the flag is set and
    Logout is not clicked the records of the search are shown, whatever
    stands in the login fields. *)
Theorem admin_logout_clears :
  forall (s : session_state) (w : admin_widgets) (d : db),
    admin_logged_in s = true ->
    admin_interaction 2 s w d
    = Some (if logout_clicked w
            then (Some false, login_form)
            else (s, dashboard (search (w_selected_user w) (w_date_from w)
                                   (w_date_to w) d))).
Proof.
  intros s w d Hs. rewrite admin_interaction_cases, Hs. reflexivity.
Qed.

Lemma admin_logout_clears_witness :
  admin_logged_in (Some true) = true /\
  admin_interaction 2 (Some true)
    (mkAdminWidgets "" "" false true "All"
       (mkDate 2024 1 1) (mkDate 2024 1 31)) alice_checked_in
  = Some (Some false, login_form).
Proof.
  split; [reflexivity|].
  exact (admin_logout_clears (Some true)
           (mkAdminWidgets "" "" false true "All"
              (mkDate 2024 1 1) (mkDate 2024 1 31)) alice_checked_in eq_refl).
Defined.

(* ------------------------------------------------------------------ *)
(** * The entries of the user filter *)

Lemma seen_iff (x : option string) (seen : list (option string)) :
  existsb (fun y => match x, y with
                    | Some a, Some b => String.eqb a b
                    | None, None => true
                    | _, _ => false
                    end) seen = true <-> In x seen.
Proof.
  rewrite existsb_exists. split.
  - intros (y & Hy & E). destruct x as [a|], y as [b|]; try discriminate.
    + apply String.eqb_eq in E. subst. exact Hy.
    + exact Hy.
  - intros H. exists x. split; [exact H|].
    destruct x; [apply String.eqb_refl | reflexivity].
Qed.

Lemma distinct_in (xs seen : list (option string)) (x : option string) :
  In x (distinct seen xs) <-> In x xs /\ ~ In x seen.
Proof.
  revert seen. induction xs as [|y xs IH]; intros seen; cbn [distinct].
  - simpl. tauto.
  - destruct (existsb _ seen) eqn:E.
    + apply seen_iff in E. rewrite IH. simpl. split.
      * intros [H1 H2]. auto.
      * intros [[-> | H1] H2]; [contradiction | auto].
    + assert (Hy : ~ In y seen) by (rewrite <- seen_iff; congruence).
      simpl. rewrite IH. simpl. split.
      * intros [<- | [H1 H2]]; [auto|]. split; [auto|]. intros H. apply H2. auto.
      * intros [[<- | H1] H2]; [auto|].
        destruct x as [a|], y as [b|]; try (right; split; [exact H1|];
          intros [H|H]; [discriminate | contradiction]).
        -- destruct (String.eqb_spec b a) as [->|Hne]; [left; reflexivity|].
           right. split; [exact H1|]. intros [[= H]|H]; [auto | contradiction].
        -- left. reflexivity.
Qed.

Lemma distinct_nodup (xs seen : list (option string)) :
  NoDup (distinct seen xs).
Proof.
  revert seen. induction xs as [|y xs IH]; intros seen; cbn [distinct].
  - constructor.
  - destruct (existsb _ seen); [apply IH|].
    constructor; [|apply IH].
    rewrite distinct_in. intros [_ H]. apply H. left. reflexivity.
Qed.

Lemma present_in (l : list (option string)) (u : string) :
  In u (present l) <-> u <> "" /\ In (Some u) l.
Proof.
  unfold present. rewrite in_flat_map. split.
  - intros ([[|c s]|] & Hx & Hu); simpl in Hu; try contradiction.
    destruct Hu as [<- | []]. split; [discriminate | exact Hx].
  - intros [Hne Hin]. exists (Some u). split; [exact Hin|].
    destruct u; [contradiction | left; reflexivity].
Qed.

Lemma present_nodup (l : list (option string)) :
  NoDup l -> NoDup (present l).
Proof.
  induction 1 as [|x l Hx Hl IH]; [constructor|].
  change (present (x :: l)) with
    ((match x with Some (String c s) => [String c s] | _ => [] end)
       ++ present l).
  destruct x as [[|c s]|]; cbn [app]; try exact IH.
  constructor; [|exact IH].
  rewrite present_in. intros [_ H]. contradiction.
Qed.

(** X23.  The user filter offers All first; after it every name that is
    not empty and stands on at least one record, each once, and nothing
    else. *)
Theorem user_options_exact :
  forall d : db,
    hd_error (user_options d) = Some "All" /\
    NoDup (tl (user_options d)) /\
    forall u, In u (tl (user_options d)) <->
              u <> "" /\ exists r, In r (rows d) /\ username r = Some u.
Proof.
  intros d. unfold user_options, all_users. cbn [hd_error tl].
  split; [reflexivity|]. split.
  - apply present_nodup, distinct_nodup.
  - intros u. rewrite present_in, distinct_in, in_map_iff. split.
    + intros (Hne & (r & Hr & Hin) & _). split; [exact Hne|]. eauto.
    + intros (Hne & r & Hin & Hr). split; [exact Hne|].
      split; [eauto | intros []].
Qed.
